(** * Next-action preparation and the prompt-template editor

    A shallow embedding of two pieces of the review application:

    - the backend handler [preGenerateNextAction], which reads a review job,
      checks the next-action feature flag, resolves the prompt template and
      the tool configuration and reshapes the review results into template
      variables;
    - the frontend component [PromptTemplateEditor], a controlled form whose
      [handleSubmit] hands the edited template to its [onSave] callback.

    The handler is asynchronous but strictly sequential (every call is
    awaited), so it is modelled in a state-and-exception monad over a
    [World] that holds the database tables, the tool-configuration
    repository, the clock read by [new Date()], the list of calls issued to
    the database and the console.

    The tables are an in-memory store: a query answers from it and an update
    changes it, and the only failure a Prisma call has here is the update of
    a row that does not exist. [getPrismaClient] and
    [makePrismaToolConfigurationRepository] are taken to succeed; what
    [toolConfigRepo.findById] does is left to the world. *)

From Stdlib Require Import ZArith Ascii Floats.SpecFloat.
From stdpp Require Import gmap strings list pretty.

Set Warnings "-register-all".
Open Scope string_scope.
Open Scope list_scope.

(** ** JavaScript values *)

(** A JavaScript number is an IEEE 754 double. *)
Abbreviation JsNumber := spec_float.

(** The values a JSON column, or [JSON.parse], can hand to the handler. The
    parameter of [resolveSourceReferences] has type [unknown]. *)
Inductive JsValue : Type :=
  | JUndefined
  | JNull
  | JBool (b : bool)
  | JNum (n : JsNumber)
  | JString (s : string)
  | JArray (items : list JsValue)
  | JObject (props : gmap string JsValue).

(** What a JavaScript function can throw here. *)
Inductive JsError : Type :=
  | TypeError (msg : string)
  | RecordNotFound (msg : string)
  | RepositoryError (msg : string).

(** [String(error)], as the template literal [`${error}`] computes it. *)
Definition error_to_string (e : JsError) : string :=
  match e with
  | TypeError msg => "TypeError: " +:+ msg
  | RecordNotFound msg => "PrismaClientKnownRequestError: " +:+ msg
  | RepositoryError msg => "Error: " +:+ msg
  end.

(** The completion of a JavaScript computation: a value, or a thrown error. *)
Inductive Outcome (A : Type) : Type :=
  | Returned (a : A)
  | Threw (e : JsError).
Arguments Returned {A} a.
Arguments Threw {A} e.

#[global] Instance Outcome_ret : MRet Outcome := λ _ a, Returned a.
#[global] Instance Outcome_bind : MBind Outcome := λ _ _ k c,
  match c with
  | Returned a => k a
  | Threw e => Threw e
  end.

#[global] Instance Outcome_fmap : FMap Outcome := λ _ _ f c,
  match c with
  | Returned a => Returned (f a)
  | Threw e => Threw e
  end.

Definition returns {A} (c : Outcome A) : bool :=
  match c with Returned _ => true | Threw _ => false end.

(** [Array.prototype.map] with a callback that may throw: the elements are
    visited from left to right and the first throw ends the loop. *)
Fixpoint array_map {A B} (f : A → Outcome B) (l : list A) : Outcome (list B) :=
  match l with
  | [] => Returned []
  | x :: l' => y ← f x; ys ← array_map f l'; Returned (y :: ys)
  end.

(** [ToBoolean]: [false], [0], [-0], [NaN], the empty string, [null] and
    [undefined] are falsy, everything else is truthy. *)
Definition truthy (v : JsValue) : bool :=
  match v with
  | JUndefined | JNull => false
  | JBool b => b
  | JNum (S754_zero _) | JNum S754_nan => false
  | JNum _ => true
  | JString s => negb (String.eqb s "")
  | JArray _ | JObject _ => true
  end.

(** The narrowing [if (s)] performs on a [string | null | undefined]: the
    string when it is truthy, that is, present and not empty. *)
Definition if_truthy (s : option string) : option string :=
  match s with
  | Some text => if String.eqb text "" then None else Some text
  | None => None
  end.

(** [v ?? d]. *)
Definition nullish_or (v d : JsValue) : JsValue :=
  match v with
  | JUndefined | JNull => d
  | _ => v
  end.

(** The member access [v.key], for the keys the handler reads ([documentId]
    and [pageNumber]), which no built-in prototype defines: an object gives
    its own property or [undefined], any other value except [null] and
    [undefined] gives [undefined], and those two throw a [TypeError]. *)
Definition get_prop (v : JsValue) (key : string) : Outcome JsValue :=
  match v with
  | JUndefined =>
      Threw (TypeError ("Cannot read properties of undefined (reading '" +:+ key +:+ "')"))
  | JNull =>
      Threw (TypeError ("Cannot read properties of null (reading '" +:+ key +:+ "')"))
  | JObject props => Returned (default JUndefined (props !! key))
  | _ => Returned JUndefined
  end.

Definition is_nullish (v : JsValue) : bool :=
  match v with JUndefined | JNull => true | _ => false end.

(** ** The rows the database returns

    Field names are those of the source, prefixed with the record's name
    where two records share one. *)

(** [NEXT_ACTION_STATUS] of the review domain model. The handler writes
    [SKIPPED], [PROCESSING] and [FAILED]; the other members are states a job
    can be in before or after the handler runs. *)
Module NEXT_ACTION_STATUS.
Inductive t : Set := PENDING | PROCESSING | COMPLETED | FAILED | SKIPPED.
End NEXT_ACTION_STATUS.

Record CheckListSet := {
  enableNextAction : bool;
  nextActionTemplateId : option string;
}.

Record Document := {
  doc_id : string;
  doc_filename : string;
}.

(** A [reviewJob] row with [include: { checkListSet, documents }]. *)
Record ReviewJob := {
  job_checkListSet : CheckListSet;
  job_documents : list Document;
  job_nextActionStatus : NEXT_ACTION_STATUS.t;
  job_updatedAt : Z;
}.

Record PromptTemplate := {
  tpl_prompt : string;
  tpl_toolConfigurationId : option string;
}.

Record CheckListParent := {
  parent_name : string;
}.

Record CheckList := {
  cl_id : string;
  cl_name : string;
  cl_description : option string;
  cl_parent : option CheckListParent;
}.

(** A [reviewResult] row with its [checkList] included. *)
Record ReviewResult := {
  rr_reviewJobId : string;
  rr_checkList : CheckList;
  rr_result : option string;
  rr_userOverride : bool;
  rr_explanation : option string;
  rr_extractedText : option string;
  rr_confidenceScore : option JsNumber;
  rr_userComment : option string;
  rr_sourceReferences : JsValue;
}.

Record KnowledgeBaseConfig := {
  knowledgeBaseId : string;
  kb_description : option string;
}.

Record McpServerConfig := {
  command : string;
  args : list string;
  env : option (gmap string string);
}.

Record McpConfig := {
  mcpServers : option (list McpServerConfig);
}.

(** What [toolConfigRepo.findById] resolves to, as far as the handler reads
    it. *)
Record ToolConfiguration := {
  cfg_id : string;
  cfg_name : string;
  cfg_knowledgeBase : option (list KnowledgeBaseConfig);
  cfg_codeInterpreter : bool;
  cfg_mcpConfig : option McpConfig;
}.

(** ** The handler's interfaces *)

Record PreGenerateNextActionParams := {
  reviewJobId : string;
  userId : option string;
}.

Record SourceReference := {
  filename : string;
  pageNumber : JsValue;
}.

Record EnrichedCheckList := {
  name : string;
  description : option string;
  parentName : option string;
}.

Record EnrichedReviewResult := {
  checkList : EnrichedCheckList;
  result : option string;
  userOverride : bool;
  explanation : option string;
  extractedText : option string;
  confidenceScore : option JsNumber;
  userComment : option string;
  sourceReferences : list SourceReference;
}.

Record TemplateData := {
  allResults : list EnrichedReviewResult;
}.

Record ToolConfigurationOutput := {
  tool_id : string;
  tool_name : string;
  knowledgeBase : option (list KnowledgeBaseConfig);
  codeInterpreter : option bool;
  mcpConfig : option McpConfig;
}.

Record PromptTemplateOutput := {
  prompt : string;
}.

(** An optional property is [None] when it is absent or [undefined]. *)
Record PreGenerateNextActionResult := {
  shouldGenerate : bool;
  promptTemplate : option PromptTemplateOutput;
  templateData : option TemplateData;
  toolConfiguration : option ToolConfigurationOutput;
  message : option string;
}.

Definition DEFAULT_NEXT_ACTION_PROMPT : string := "
You are an AI assistant that generates concise, actionable next steps based on document review results.

## Review Results
{{all_results}}

## Output Format
Generate a markdown-formatted response. For each failed item, output in this format:

1. **[Check item name]**
   - Location: [filename, page number]
   - Action: [Concrete action to take]

## Guidelines
- Use heading level 3 (###) or lower - never use h1 or h2
- Be concise - one item per failed check
- Specify the exact location (filename, page number)
- Provide concrete action, not general advice
- Do NOT include general improvement suggestions
- Do NOT include warnings or disclaimers
- IMPORTANT: Output ENTIRELY in the same language as the input document
".

(** ** The world the handler runs in *)

Record Database := {
  db_reviewJob : gmap string ReviewJob;
  db_promptTemplate : gmap string PromptTemplate;
  db_reviewResult : list ReviewResult;
}.

(** The calls the handler issues, in order. [ReviewJobUpdate] is the only
    write. *)
Inductive DbCall : Type :=
  | ReviewJobFindUnique (id : string)
  | ReviewJobUpdate (id : string) (status : NEXT_ACTION_STATUS.t) (updatedAt : Z)
  | PromptTemplateFindUnique (id : string)
  | ReviewResultFindMany (jobId : string)
  | ToolConfigurationFindById (id : string).

Inductive ConsoleLine : Type :=
  | Log (text : string)
  | Error (text : string).

(** [clock k] is what the [k]-th evaluation of [new Date()] reads;
    [dates] counts the evaluations so far. The tool-configuration repository
    is taken as its [findById]: a configuration, or the error it throws. *)
Record World := {
  db : Database;
  toolConfigRepo : string → Outcome ToolConfiguration;
  clock : nat → Z;
  dates : nat;
  calls : list DbCall;
  console : list ConsoleLine;
}.

(** A computation runs in a world and leaves a world behind, also when it
    throws: nothing is rolled back. *)
Definition M (A : Type) : Type := World → Outcome A * World.

#[global] Instance M_ret : MRet M := λ _ a w, (Returned a, w).
#[global] Instance M_bind : MBind M := λ _ _ k c w,
  match c w with
  | (Returned a, w') => k a w'
  | (Threw e, w') => (Threw e, w')
  end.

Definition lift {A} (c : Outcome A) : M A := λ w, (c, w).

(** [try { body } catch (error) { handler(error) }]. *)
Definition try_catch {A} (body : M A) (handler : JsError → M A) : M A := λ w,
  match body w with
  | (Returned a, w') => (Returned a, w')
  | (Threw e, w') => handler e w'
  end.

Definition issue (c : DbCall) (w : World) : World :=
  {| db := db w; toolConfigRepo := toolConfigRepo w; clock := clock w;
     dates := dates w; calls := calls w ++ [c]; console := console w |}.

Definition print (l : ConsoleLine) (w : World) : World :=
  {| db := db w; toolConfigRepo := toolConfigRepo w; clock := clock w;
     dates := dates w; calls := calls w; console := console w ++ [l] |}.

Definition store (d : Database) (w : World) : World :=
  {| db := d; toolConfigRepo := toolConfigRepo w; clock := clock w;
     dates := dates w; calls := calls w; console := console w |}.

Definition tick (w : World) : World :=
  {| db := db w; toolConfigRepo := toolConfigRepo w; clock := clock w;
     dates := S (dates w); calls := calls w; console := console w |}.

Definition console_log (text : string) : M unit := λ w, (Returned (), print (Log text) w).
Definition console_error (text : string) : M unit := λ w, (Returned (), print (Error text) w).

(** [new Date()]. *)
Definition newDate : M Z := λ w, (Returned (clock w (dates w)), tick w).

(** [db.reviewJob.findUnique({ where: { id } , include: ... })]. *)
Definition reviewJob_findUnique (id : string) : M (option ReviewJob) := λ w,
  (Returned (db_reviewJob (db w) !! id), issue (ReviewJobFindUnique id) w).

Definition set_nextActionStatus (status : NEXT_ACTION_STATUS.t) (updatedAt : Z)
    (job : ReviewJob) : ReviewJob :=
  {| job_checkListSet := job_checkListSet job;
     job_documents := job_documents job;
     job_nextActionStatus := status;
     job_updatedAt := updatedAt |}.

Definition write_status (id : string) (status : NEXT_ACTION_STATUS.t) (updatedAt : Z)
    (job : ReviewJob) (d : Database) : Database :=
  {| db_reviewJob := <[id := set_nextActionStatus status updatedAt job]> (db_reviewJob d);
     db_promptTemplate := db_promptTemplate d;
     db_reviewResult := db_reviewResult d |}.

(** [db.reviewJob.update({ where: { id }, data: { nextActionStatus,
    updatedAt } })]: Prisma throws when no row has that id. *)
Definition reviewJob_update (id : string) (status : NEXT_ACTION_STATUS.t) (updatedAt : Z)
    : M unit := λ w,
  let w' := issue (ReviewJobUpdate id status updatedAt) w in
  match db_reviewJob (db w) !! id with
  | Some job => (Returned (), store (write_status id status updatedAt job (db w)) w')
  | None => (Threw (RecordNotFound "Record to update not found."), w')
  end.

(** [db.promptTemplate.findUnique({ where: { id } })]. *)
Definition promptTemplate_findUnique (id : string) : M (option PromptTemplate) := λ w,
  (Returned (db_promptTemplate (db w) !! id), issue (PromptTemplateFindUnique id) w).

(** [db.reviewResult.findMany({ where: { reviewJobId }, include: ... })]. *)
Definition reviewResult_findMany (jobId : string) : M (list ReviewResult) := λ w,
  (Returned (filter (λ r, rr_reviewJobId r = jobId) (db_reviewResult (db w))),
   issue (ReviewResultFindMany jobId) w).

(** [toolConfigRepo.findById(id)]. *)
Definition toolConfigRepo_findById (id : string) : M ToolConfiguration := λ w,
  (toolConfigRepo w id, issue (ToolConfigurationFindById id) w).

(** ** The handler *)

(** [new Map(entries)]: a later entry replaces an earlier one with the same
    key. *)
Definition new_Map (entries : list (string * string)) : gmap string string :=
  foldl (λ m entry, <[entry.1 := entry.2]> m) ∅ entries.

(** [documentMap.get(ref.documentId) || "Unknown"]: the keys of the map are
    the strings [doc.id], so a [documentId] that is not a string finds
    nothing, and an empty filename is falsy. *)
Definition lookup_filename (documentMap : gmap string string) (documentId : JsValue) : string :=
  match documentId with
  | JString id =>
      match documentMap !! id with
      | Some file => if String.eqb file "" then "Unknown" else file
      | None => "Unknown"
      end
  | _ => "Unknown"
  end.

(** The callback of [parsed.map] in [resolveSourceReferences]. *)
Definition resolveSourceReference (documentMap : gmap string string) (ref : JsValue)
    : Outcome SourceReference :=
  documentId ← get_prop ref "documentId";
  let file :=
    if truthy documentId then lookup_filename documentMap documentId else "Unknown" in
  page ← get_prop ref "pageNumber";
  Returned {| filename := file; pageNumber := nullish_or page JNull |}.

(** Step 7's transformation "to agent-compatible format". *)
Definition toAgentFormat (config : ToolConfiguration) : ToolConfigurationOutput :=
  {| tool_id := cfg_id config;
     tool_name := cfg_name config;
     knowledgeBase :=
       match cfg_knowledgeBase config with
       | Some (kb :: kbs) => Some (kb :: kbs)
       | _ => None
       end;
     codeInterpreter := if cfg_codeInterpreter config then Some true else None;
     mcpConfig :=
       match cfg_mcpConfig config with
       | Some mcp =>
           match mcpServers mcp with
           | Some (_ :: _) => Some mcp
           | _ => None
           end
       | None => None
       end |}.

Definition declined (text : string) : PreGenerateNextActionResult :=
  {| shouldGenerate := false;
     promptTemplate := None;
     templateData := None;
     toolConfiguration := None;
     message := Some text |}.

Section Handler.

(** [JSON.parse], a built-in of the JavaScript runtime: [None] stands for the
    [SyntaxError] it throws on a text that is not valid JSON. *)
Variable JSON_parse : string → option JsValue.

Definition resolveSourceReferences (documentMap : gmap string string) (refs : JsValue)
    : Outcome (list SourceReference) :=
  if negb (truthy refs) then Returned []
  else
    let parsed :=
      match refs with
      | JString text => JSON_parse text
      | _ => Some refs
      end in
    match parsed with
    | None => Returned []
    | Some (JArray items) => array_map (resolveSourceReference documentMap) items
    | Some _ => Returned []
    end.

(** The callback of [reviewResults.map] that builds [templateData]. *)
Definition enrich (documentMap : gmap string string) (item : ReviewResult)
    : Outcome EnrichedReviewResult :=
  refs ← resolveSourceReferences documentMap (rr_sourceReferences item);
  Returned
    {| checkList :=
         {| name := cl_name (rr_checkList item);
            description := cl_description (rr_checkList item);
            parentName := parent_name <$> cl_parent (rr_checkList item) |};
       result := rr_result item;
       userOverride := rr_userOverride item;
       explanation := rr_explanation item;
       extractedText := rr_extractedText item;
       confidenceScore := rr_confidenceScore item;
       userComment := rr_userComment item;
       sourceReferences := refs |}.

(** Steps 5 to 7 and the final return, once the prompt and the tool
    configuration id are settled (the source reaches them by falling through
    step 4). The factory [makePrismaToolConfigurationRepository], awaited
    before the [try], is taken to return, and so is every Prisma call: a
    run of the model throws at step 6 only. *)
Definition prepare (reviewJobId : string) (reviewJob : ReviewJob)
    (promptToUse : string) (toolConfigurationId : option string)
    : M PreGenerateNextActionResult :=
  (* 5. Get review results with parent hierarchy *)
  reviewResults ← reviewResult_findMany reviewJobId;
  (* 6. Prepare template variable data *)
  let documentMap :=
    new_Map (map (λ doc, (doc_id doc, doc_filename doc)) (job_documents reviewJob)) in
  allResults ← lift (array_map (enrich documentMap) reviewResults);
  let templateData := {| allResults := allResults |} in
  let passCount := length (filter (λ r, rr_result r = Some "pass") reviewResults) in
  let failCount := length (filter (λ r, rr_result r = Some "fail") reviewResults) in
  (* 7. Get tool configuration if specified *)
  toolConfiguration ←
    match if_truthy toolConfigurationId with
    | Some id =>
        try_catch
          (config ← toolConfigRepo_findById id;
           console_log ("[PreGenerateNextAction] Using tool configuration: " +:+ id);;
           mret (Some (toAgentFormat config)))
          (λ error,
           console_error
             ("[PreGenerateNextAction] Failed to fetch tool configuration: "
              +:+ error_to_string error);;
           mret None)
    | None => mret None
    end;
  console_log
    ("[PreGenerateNextAction] Prepared data: " +:+ pretty passCount +:+ " pass, "
     +:+ pretty failCount +:+ " fail, " +:+ pretty (length allResults) +:+ " total items");;
  mret {| shouldGenerate := true;
          promptTemplate := Some {| prompt := promptToUse |};
          templateData := Some templateData;
          toolConfiguration := toolConfiguration;
          message := None |}.

Definition preGenerateNextAction (params : PreGenerateNextActionParams)
    : M PreGenerateNextActionResult :=
  let reviewJobId := reviewJobId params in
  console_log ("[PreGenerateNextAction] Starting for reviewJobId: " +:+ reviewJobId);;
  (* 1. Get ReviewJob with CheckListSet *)
  reviewJob ← reviewJob_findUnique reviewJobId;
  match reviewJob with
  | None =>
      console_error ("[PreGenerateNextAction] ReviewJob not found: " +:+ reviewJobId);;
      mret (declined "Review job not found")
  | Some reviewJob =>
      (* 2. Check if Next Action is enabled *)
      let enableNextAction := enableNextAction (job_checkListSet reviewJob) in
      let nextActionTemplateId := nextActionTemplateId (job_checkListSet reviewJob) in
      if negb enableNextAction then
        console_log "[PreGenerateNextAction] Next Action is disabled, skipping";;
        now ← newDate;
        reviewJob_update reviewJobId NEXT_ACTION_STATUS.SKIPPED now;;
        mret (declined "Next Action is disabled")
      else
        (* 3. Set status to processing *)
        now ← newDate;
        reviewJob_update reviewJobId NEXT_ACTION_STATUS.PROCESSING now;;
        (* 4. Get prompt template (use default if not specified) *)
        match if_truthy nextActionTemplateId with
        | Some templateId =>
            template ← promptTemplate_findUnique templateId;
            match template with
            | None =>
                console_error ("[PreGenerateNextAction] Template not found: " +:+ templateId);;
                now ← newDate;
                reviewJob_update reviewJobId NEXT_ACTION_STATUS.FAILED now;;
                mret (declined "Prompt template not found")
            | Some template =>
                console_log ("[PreGenerateNextAction] Using custom template: " +:+ templateId);;
                prepare reviewJobId reviewJob (tpl_prompt template)
                  (tpl_toolConfigurationId template)
            end
        | None =>
            console_log "[PreGenerateNextAction] Using default prompt";;
            prepare reviewJobId reviewJob DEFAULT_NEXT_ACTION_PROMPT None
        end
  end.

End Handler.

(** The database writes among the calls issued. *)
Definition is_write (c : DbCall) : bool :=
  match c with ReviewJobUpdate _ _ _ => true | _ => false end.

Definition writes (cs : list DbCall) : list DbCall := List.filter is_write cs.

(** The calls a run issued: those of the world it left, [w'], beyond those
    of the world it started in, [w]. *)
Definition issued (w w' : World) : list DbCall := drop (length (calls w)) (calls w').

(** A call without the timestamp it carries. *)
Definition untimed (c : DbCall) : DbCall :=
  match c with
  | ReviewJobUpdate id status _ => ReviewJobUpdate id status 0
  | _ => c
  end.

(** The status a job has in a database. *)
Definition status_of (d : Database) (id : string) : option NEXT_ACTION_STATUS.t :=
  job_nextActionStatus <$> db_reviewJob d !! id.

(** ** The prompt-template editor *)

Module Frontend.

(** The double quote, which the default prompts contain. *)
Definition dquote : string := String "034"%char EmptyString.

(** *** constants *)

Definition DEFAULT_CHECKLIST_PROMPT : string :=
  "
You are an AI assistant that extracts and structures " +:+ dquote +:+
  "Checklists" +:+ dquote +:+
  " from technical documents, legal documents, tables, and drawings.

## Overview
Extract checklist items from unstructured data and structure them, including their hierarchical structure.

## Output Format
Output must be in strict JSON array format. Do not use markdown syntax (like ```json), return only pure JSON array.

IMPORTANT: Always output in array format (enclosed in [ ]). Return an array, not an object ({ }).

Each checklist item should include the following fields:

- name: Name of the check item
- description: Detailed explanation of the check content
- parent_id: Parent item number (null for top-level items)

## Extraction Rules
1. Identify both simple check items and flowchart-type items
2. Express hierarchical structure through parent-child relationships (parent_id)
3. Extract all check items without omission
4. Eliminate and organize duplicates
5. Express parent_id as a number (starting from 0, null for top-level items)

## Example: Correct Output Format (Array)
[
  {
    " +:+ dquote +:+
  "name" +:+ dquote +:+
  ": " +:+ dquote +:+
  "Contract party specification" +:+ dquote +:+
  ",
    " +:+ dquote +:+
  "description" +:+ dquote +:+
  ": " +:+ dquote +:+
  "Check if the official names of both parties are accurately stated in the contract" +:+ dquote +:+
  ",
    " +:+ dquote +:+
  "parent_id" +:+ dquote +:+
  ": 0
  },
  {
    " +:+ dquote +:+
  "name" +:+ dquote +:+
  ": " +:+ dquote +:+
  "Specified asset exists" +:+ dquote +:+
  ",
    " +:+ dquote +:+
  "description" +:+ dquote +:+
  ": " +:+ dquote +:+
  "Check if specified assets exist, considering whether the supplier has the substantive ability to substitute the asset throughout the period of use" +:+ dquote +:+
  ",
    " +:+ dquote +:+
  "parent_id" +:+ dquote +:+
  ": null
  }
]

## Notes
- Include all information that can be extracted from the document
- Accurately reflect the hierarchical structure
- Output should be strictly JSON array only, without explanatory text or markdown syntax (like ```json code blocks)
- Output in the same language as the input document
- parent_id must always be expressed as a number (or null for top-level items)
- Always output in array format. Return an array, not an object.

Extract the checklist from the input document in the above format and return it as a JSON array.
".

Definition DEFAULT_REVIEW_PROMPT : string :=
  "
You are an AI assistant that reviews documents.
Please review the provided document based on the following check item.

Check item: {checkName}
Description: {checkDescription}

Document content:
{documentContent}

## IMPORTANT OUTPUT LANGUAGE REQUIREMENT
OUTPUT SHOULD MATCH THE LANGUAGE OF THE INPUT DOCUMENT.

Determine whether the document complies with this check item and respond in JSON format as follows.
It is strictly forbidden to output anything other than JSON. Do not use markdown syntax (like ```json), return only pure JSON.

{
  " +:+ dquote +:+
  "result" +:+ dquote +:+
  ": " +:+ dquote +:+
  "pass" +:+ dquote +:+
  " or " +:+ dquote +:+
  "fail" +:+ dquote +:+
  ",
  " +:+ dquote +:+
  "confidence" +:+ dquote +:+
  ": A number between 0 and 1 (confidence level),
  " +:+ dquote +:+
  "explanation" +:+ dquote +:+
  ": " +:+ dquote +:+
  "Explanation of the judgment" +:+ dquote +:+
  ",
  " +:+ dquote +:+
  "shortExplanation" +:+ dquote +:+
  ": " +:+ dquote +:+
  "Short summary of judgment (within 80 characters)" +:+ dquote +:+
  ",
  " +:+ dquote +:+
  "extractedText" +:+ dquote +:+
  ": [" +:+ dquote +:+
  "Relevant extracted text" +:+ dquote +:+
  "],
  " +:+ dquote +:+
  "pageNumber" +:+ dquote +:+
  ": Page number where the extracted text is found (integer starting from 1)
}

Examples of confidence scores:
- High confidence (0.9-1.0): When the document contains clear information and the compliance with the check item is obvious
- Medium confidence (0.7-0.89): When the document contains relevant information but it's not completely clear
- Low confidence (0.5-0.69): When the document contains ambiguous information and there is uncertainty in the judgment

The shortExplanation should be a concise summary of the judgment within 80 characters.
For example: " +:+ dquote +:+
  "Pass because signatures and seals are confirmed on the contract" +:+ dquote +:+
  " or " +:+ dquote +:+
  "Fail because property area is not mentioned" +:+ dquote +:+
  "

Example response:

Example 1 (high confidence pass):
{
  " +:+ dquote +:+
  "result" +:+ dquote +:+
  ": " +:+ dquote +:+
  "pass" +:+ dquote +:+
  ",
  " +:+ dquote +:+
  "confidence" +:+ dquote +:+
  ": 0.95,
  " +:+ dquote +:+
  "explanation" +:+ dquote +:+
  ": " +:+ dquote +:+
  "The contract clearly states the contractor's name, address, and contact information in Article 3. All required information is present and accurate." +:+ dquote +:+
  ",
  " +:+ dquote +:+
  "shortExplanation" +:+ dquote +:+
  ": " +:+ dquote +:+
  "Pass because contractor information is clearly stated in Article 3 of the contract" +:+ dquote +:+
  ",
  " +:+ dquote +:+
  "extractedText" +:+ dquote +:+
  ": [" +:+ dquote +:+
  "Article 3 (Contractor Information) Contractor: John Smith, Address: 123 Main St..." +:+ dquote +:+
  "],
  " +:+ dquote +:+
  "pageNumber" +:+ dquote +:+
  ": 2
}

Example 2 (medium confidence fail):
{
  " +:+ dquote +:+
  "result" +:+ dquote +:+
  ": " +:+ dquote +:+
  "fail" +:+ dquote +:+
  ",
  " +:+ dquote +:+
  "confidence" +:+ dquote +:+
  ": 0.82,
  " +:+ dquote +:+
  "explanation" +:+ dquote +:+
  ": " +:+ dquote +:+
  "While the property location is mentioned in the contract, there is no mention of the property area. The check item requires the area to be specified." +:+ dquote +:+
  ",
  " +:+ dquote +:+
  "shortExplanation" +:+ dquote +:+
  ": " +:+ dquote +:+
  "Fail because property area is not mentioned despite having property location" +:+ dquote +:+
  ",
  " +:+ dquote +:+
  "extractedText" +:+ dquote +:+
  ": [" +:+ dquote +:+
  "Property location: 1-1-1 Nishi-Shinjuku, Shinjuku-ku, Tokyo" +:+ dquote +:+
  "],
  " +:+ dquote +:+
  "pageNumber" +:+ dquote +:+
  ": 1
}

Example 3 (low confidence pass):
{
  " +:+ dquote +:+
  "result" +:+ dquote +:+
  ": " +:+ dquote +:+
  "pass" +:+ dquote +:+
  ",
  " +:+ dquote +:+
  "confidence" +:+ dquote +:+
  ": 0.65,
  " +:+ dquote +:+
  "explanation" +:+ dquote +:+
  ": " +:+ dquote +:+
  "The contract mentions payment terms, but the specific payment date is ambiguous. However, it meets the minimum requirements." +:+ dquote +:+
  ",
  " +:+ dquote +:+
  "shortExplanation" +:+ dquote +:+
  ": " +:+ dquote +:+
  "Pass as payment terms exist though payment date is ambiguous" +:+ dquote +:+
  ",
  " +:+ dquote +:+
  "extractedText" +:+ dquote +:+
  ": [" +:+ dquote +:+
  "Payment shall be made promptly after contract conclusion." +:+ dquote +:+
  "],
  " +:+ dquote +:+
  "pageNumber" +:+ dquote +:+
  ": 3
}

RESPONSE MUST BE IN PURE JSON FORMAT WITH NO ADDITIONAL TEXT.
".

Definition DEFAULT_NEXT_ACTION_PROMPT : string :=
  "
You are an AI assistant that generates concise, actionable next steps based on document review results.

## Review Results
{{all_results}}

## Output Format
Generate a markdown-formatted response. For each failed item, output in this format:

1. **[Check item name]**
   - Location: [filename, page number]
   - Action: [Concrete action to take]

## Guidelines
- Use heading level 3 (###) or lower - never use h1 or h2
- Be concise - one item per failed check
- Specify the exact location (filename, page number)
- Provide concrete action, not general advice
- Do NOT include general improvement suggestions
- Do NOT include warnings or disclaimers
- IMPORTANT: Output ENTIRELY in the same language as the input document
".

(** *** types *)

Module PromptTemplateType.
Inductive t : Set := CHECKLIST | REVIEW | NEXT_ACTION.

Definition eqb (a b : t) : bool :=
  match a, b with
  | CHECKLIST, CHECKLIST | REVIEW, REVIEW | NEXT_ACTION, NEXT_ACTION => true
  | _, _ => false
  end.
End PromptTemplateType.

(** A property that can be missing ([undefined]), [null], or hold a value. *)
Inductive Optional (A : Type) : Type :=
  | Undefined
  | Null
  | Value (a : A).
Arguments Undefined {A}.
Arguments Null {A}.
Arguments Value {A} a.

Record PromptTemplate := {
  template_name : string;
  template_description : option string;
  template_prompt : string;
  template_toolConfigurationId : Optional string;
}.

(** The object [handleSubmit] passes to [onSave]. *)
Record UpdatePromptTemplateRequest := {
  name : string;
  description : string;
  prompt : string;
  toolConfigurationId : Optional string;
}.

(** *** PromptTemplateEditor *)

Definition NEXT_ACTION_TEMPLATE_VARIABLES : list (string * string) :=
  [("{{all_results}}", "all_results")].

(** The component's [useState] cells. *)
Record State := {
  st_name : string;
  st_description : string;
  st_prompt : string;
  st_toolConfigurationId : Optional string;
  st_isDirty : bool;
}.

(** [s || d] on strings. *)
Definition or_else (s d : string) : string := if String.eqb s "" then d else s.

(** [a ?? null]. *)
Definition or_null {A} (a : Optional A) : Optional A :=
  match a with
  | Value x => Value x
  | Undefined | Null => Null
  end.

Definition defaultPrompt (type : PromptTemplateType.t) : string :=
  match type with
  | PromptTemplateType.CHECKLIST => DEFAULT_CHECKLIST_PROMPT
  | PromptTemplateType.REVIEW => DEFAULT_REVIEW_PROMPT
  | PromptTemplateType.NEXT_ACTION => DEFAULT_NEXT_ACTION_PROMPT
  end.

(** The initial values handed to [useState]. *)
Definition initialState (template : option PromptTemplate) (type : PromptTemplateType.t)
    : State :=
  {| st_name := or_else (from_option template_name "" template) "";
     st_description :=
       or_else (default "" (template ≫= template_description)) "";
     st_prompt := or_else (from_option template_prompt "" template) (defaultPrompt type);
     st_toolConfigurationId :=
       from_option template_toolConfigurationId Undefined template;
     st_isDirty := false |}.

(** The [useEffect] that follows the [template] prop. *)
Definition useEffect_template (template : option PromptTemplate) (st : State) : State :=
  match template with
  | Some t =>
      {| st_name := template_name t;
         st_description := or_else (default "" (template_description t)) "";
         st_prompt := template_prompt t;
         st_toolConfigurationId := template_toolConfigurationId t;
         st_isDirty := false |}
  | None => st
  end.

Definition setName (v : string) (st : State) : State :=
  {| st_name := v; st_description := st_description st; st_prompt := st_prompt st;
     st_toolConfigurationId := st_toolConfigurationId st; st_isDirty := st_isDirty st |}.

Definition setDescription (v : string) (st : State) : State :=
  {| st_name := st_name st; st_description := v; st_prompt := st_prompt st;
     st_toolConfigurationId := st_toolConfigurationId st; st_isDirty := st_isDirty st |}.

Definition setPrompt (v : string) (st : State) : State :=
  {| st_name := st_name st; st_description := st_description st; st_prompt := v;
     st_toolConfigurationId := st_toolConfigurationId st; st_isDirty := st_isDirty st |}.

Definition setToolConfigurationId (v : Optional string) (st : State) : State :=
  {| st_name := st_name st; st_description := st_description st; st_prompt := st_prompt st;
     st_toolConfigurationId := v; st_isDirty := st_isDirty st |}.

Definition setIsDirty (v : bool) (st : State) : State :=
  {| st_name := st_name st; st_description := st_description st; st_prompt := st_prompt st;
     st_toolConfigurationId := st_toolConfigurationId st; st_isDirty := v |}.

(** [handleInsertVariable]: [selection] is the textarea's [selectionStart]
    and [selectionEnd], or [None] when the ref is not attached. The source
    counts these offsets in UTF-16 units, the model in characters of its
    strings: the two agree on an ASCII prompt, and the cut is the source's
    only there (the dirty flag is the source's everywhere). *)
Definition handleInsertVariable (variable : string) (selection : option (nat * nat))
    (st : State) : State :=
  match selection with
  | Some (start, stop) =>
      let newPrompt :=
        String.substring 0 start (st_prompt st) +:+ variable
        +:+ String.substring stop (String.length (st_prompt st) - stop) (st_prompt st) in
      setIsDirty true (setPrompt newPrompt st)
  | None => setIsDirty true (setPrompt (st_prompt st +:+ variable) st)
  end.

Definition handleChange (st : State) : State := setIsDirty true st.

(** The argument [handleSubmit] evaluates for [onSave]. *)
Definition submitted (type : PromptTemplateType.t) (st : State) : UpdatePromptTemplateRequest :=
  {| name := st_name st;
     description := st_description st;
     prompt := st_prompt st;
     toolConfigurationId :=
       if PromptTemplateType.eqb type PromptTemplateType.NEXT_ACTION
       then or_null (st_toolConfigurationId st)
       else Undefined |}.

(** [handleSubmit]: the request goes to [onSave]; [saved] tells whether the
    promise [onSave] returned was fulfilled, and only then is the dirty flag
    cleared. *)
Definition handleSubmit (type : PromptTemplateType.t) (saved : bool) (st : State)
    : State * UpdatePromptTemplateRequest :=
  (if saved then setIsDirty false st else st, submitted type st).

Definition handleReset (type : PromptTemplateType.t) (st : State) : State :=
  match type with
  | PromptTemplateType.CHECKLIST => setIsDirty true (setPrompt DEFAULT_CHECKLIST_PROMPT st)
  | PromptTemplateType.REVIEW => setIsDirty true (setPrompt DEFAULT_REVIEW_PROMPT st)
  | PromptTemplateType.NEXT_ACTION => setIsDirty true (setPrompt DEFAULT_NEXT_ACTION_PROMPT st)
  end.

(** What the user, or the parent component, can do to a mounted editor. The
    disabled state of the buttons is not modelled: every state can be
    submitted, and any text can be inserted. *)
Inductive Event : Type :=
  | NameChanged (value : string)
  | DescriptionChanged (value : string)
  | ToolConfigurationSelected (value : string)
  | PromptChanged (value : string)
  | InsertClicked (variable : string) (selection : option (nat * nat))
  | ResetClicked
  | FormSubmitted (saved : bool)
  | TemplateReplaced (template : option PromptTemplate).

(** One event: the next state and the requests handed to [onSave]. The
    tool-configuration select and the insert buttons are rendered for the
    [NEXT_ACTION] type only. *)
Definition step (type : PromptTemplateType.t) (st : State) (ev : Event)
    : State * list UpdatePromptTemplateRequest :=
  match ev with
  | NameChanged v => (handleChange (setName v st), [])
  | DescriptionChanged v => (handleChange (setDescription v st), [])
  | ToolConfigurationSelected v =>
      if PromptTemplateType.eqb type PromptTemplateType.NEXT_ACTION
      then (handleChange
              (setToolConfigurationId (if String.eqb v "" then Undefined else Value v) st), [])
      else (st, [])
  | PromptChanged v => (handleChange (setPrompt v st), [])
  | InsertClicked variable selection =>
      if PromptTemplateType.eqb type PromptTemplateType.NEXT_ACTION
      then (handleInsertVariable variable selection st, [])
      else (st, [])
  | ResetClicked => (handleReset type st, [])
  | FormSubmitted saved =>
      let '(st', req) := handleSubmit type saved st in (st', [req])
  | TemplateReplaced template => (useEffect_template template st, [])
  end.

(** A session: the events in order, and every request saved on the way. *)
Fixpoint run (type : PromptTemplateType.t) (st : State) (evs : list Event)
    : State * list UpdatePromptTemplateRequest :=
  match evs with
  | [] => (st, [])
  | ev :: evs' =>
      let '(st', reqs) := step type st ev in
      let '(st'', reqs') := run type st' evs' in
      (st'', reqs ++ reqs')
  end.

(** Mounting: the initial state, then the effect. *)
Definition mount (template : option PromptTemplate) (type : PromptTemplateType.t) : State :=
  useEffect_template template (initialState template type).

(** [disabled={!isDirty || isSubmitting || !name || !prompt}] of the save
    button. *)
Definition saveDisabled (isSubmitting : bool) (st : State) : bool :=
  negb (st_isDirty st) || isSubmitting
  || String.eqb (st_name st) "" || String.eqb (st_prompt st) "".

(** [value={toolConfigurationId || ""}] of the tool-configuration select. *)
Definition selectValue (st : State) : string :=
  match st_toolConfigurationId st with
  | Value id => or_else id ""
  | Undefined | Null => ""
  end.

(** A text of ASCII characters only. There a character of the model's
    strings is one UTF-16 unit of the source's, which is what
    [selectionStart], [selectionEnd] and [substring] count; elsewhere the
    offsets of [handleInsertVariable] are not the source's. *)
Fixpoint is_ascii (s : string) : bool :=
  match s with
  | EmptyString => true
  | String (Ascii _ _ _ _ _ _ _ high) rest => negb high && is_ascii rest
  end.

(** The events that submit the form. *)
Definition is_submission (ev : Event) : bool :=
  match ev with FormSubmitted _ => true | _ => false end.

End Frontend.

(** ** The paths through the handler

    The handler has five ways to end. [Path] lists them with what each
    leaves behind: the outcome, the database and the calls issued. The
    console and the number of clock readings are not part of it. *)

(** The tool-configuration lookups step 7 issues, and what it leaves in
    [toolConfiguration]. *)
Definition lookups (toolConfigurationId : option string) : list DbCall :=
  match if_truthy toolConfigurationId with
  | Some id => [ToolConfigurationFindById id]
  | None => []
  end.

Definition fetched (repo : string → Outcome ToolConfiguration)
    (toolConfigurationId : option string) : option ToolConfigurationOutput :=
  match if_truthy toolConfigurationId with
  | Some id =>
      match repo id with
      | Returned config => Some (toAgentFormat config)
      | Threw _ => None
      end
  | None => None
  end.

Section Paths.

Variable JSON_parse : string → option JsValue.
Variable params : PreGenerateNextActionParams.
Variable w : World.

(** The two clock readings a run can take. *)
Definition first_date : Z := clock w (dates w).
Definition second_date : Z := clock w (S (dates w)).

(** What [reviewResult.findMany] returns for the job. *)
Definition fetched_results : list ReviewResult :=
  filter (λ r, rr_reviewJobId r = reviewJobId params) (db_reviewResult (db w)).

Definition documentMap_of (job : ReviewJob) : gmap string string :=
  new_Map (map (λ doc, (doc_id doc, doc_filename doc)) (job_documents job)).

(** Step 4 when it does not fail: the prompt, the tool configuration id and
    the calls issued. *)
Inductive Resolved (job : ReviewJob) : string → option string → list DbCall → Prop :=
  | default_prompt :
      if_truthy (nextActionTemplateId (job_checkListSet job)) = None →
      Resolved job DEFAULT_NEXT_ACTION_PROMPT None []
  | custom_prompt templateId template :
      if_truthy (nextActionTemplateId (job_checkListSet job)) = Some templateId →
      db_promptTemplate (db w) !! templateId = Some template →
      Resolved job (tpl_prompt template) (tpl_toolConfigurationId template)
        [PromptTemplateFindUnique templateId].

Inductive Path : Outcome PreGenerateNextActionResult → World → Prop :=
  | job_missing w' :
      db_reviewJob (db w) !! reviewJobId params = None →
      db w' = db w →
      calls w' = calls w ++ [ReviewJobFindUnique (reviewJobId params)] →
      Path (Returned (declined "Review job not found")) w'
  | next_action_disabled job w' :
      db_reviewJob (db w) !! reviewJobId params = Some job →
      enableNextAction (job_checkListSet job) = false →
      db w' = write_status (reviewJobId params) NEXT_ACTION_STATUS.SKIPPED first_date job (db w) →
      calls w' = calls w ++
        [ReviewJobFindUnique (reviewJobId params);
         ReviewJobUpdate (reviewJobId params) NEXT_ACTION_STATUS.SKIPPED first_date] →
      Path (Returned (declined "Next Action is disabled")) w'
  | template_missing job templateId w' :
      db_reviewJob (db w) !! reviewJobId params = Some job →
      enableNextAction (job_checkListSet job) = true →
      if_truthy (nextActionTemplateId (job_checkListSet job)) = Some templateId →
      db_promptTemplate (db w) !! templateId = None →
      db w' =
        write_status (reviewJobId params) NEXT_ACTION_STATUS.FAILED second_date
          (set_nextActionStatus NEXT_ACTION_STATUS.PROCESSING first_date job)
          (write_status (reviewJobId params) NEXT_ACTION_STATUS.PROCESSING first_date job (db w)) →
      calls w' = calls w ++
        [ReviewJobFindUnique (reviewJobId params);
         ReviewJobUpdate (reviewJobId params) NEXT_ACTION_STATUS.PROCESSING first_date;
         PromptTemplateFindUnique templateId;
         ReviewJobUpdate (reviewJobId params) NEXT_ACTION_STATUS.FAILED second_date] →
      Path (Returned (declined "Prompt template not found")) w'
  | template_data_threw job promptToUse toolConfigurationId step4 e w' :
      db_reviewJob (db w) !! reviewJobId params = Some job →
      enableNextAction (job_checkListSet job) = true →
      Resolved job promptToUse toolConfigurationId step4 →
      array_map (enrich JSON_parse (documentMap_of job)) fetched_results = Threw e →
      db w' = write_status (reviewJobId params) NEXT_ACTION_STATUS.PROCESSING first_date job (db w) →
      calls w' = calls w ++
        [ReviewJobFindUnique (reviewJobId params);
         ReviewJobUpdate (reviewJobId params) NEXT_ACTION_STATUS.PROCESSING first_date]
        ++ step4 ++ [ReviewResultFindMany (reviewJobId params)] →
      Path (Threw e) w'
  | prepared job promptToUse toolConfigurationId step4 enriched w' :
      db_reviewJob (db w) !! reviewJobId params = Some job →
      enableNextAction (job_checkListSet job) = true →
      Resolved job promptToUse toolConfigurationId step4 →
      array_map (enrich JSON_parse (documentMap_of job)) fetched_results = Returned enriched →
      db w' = write_status (reviewJobId params) NEXT_ACTION_STATUS.PROCESSING first_date job (db w) →
      calls w' = calls w ++
        [ReviewJobFindUnique (reviewJobId params);
         ReviewJobUpdate (reviewJobId params) NEXT_ACTION_STATUS.PROCESSING first_date]
        ++ step4 ++ [ReviewResultFindMany (reviewJobId params)] ++ lookups toolConfigurationId →
      Path
        (Returned
           {| shouldGenerate := true;
              promptTemplate := Some {| prompt := promptToUse |};
              templateData := Some {| allResults := enriched |};
              toolConfiguration := fetched (toolConfigRepo w) toolConfigurationId;
              message := None |})
        w'.

End Paths.

(** The array [parsed.map] runs over in [resolveSourceReferences], when the
    guards before it let one through: the input itself, or what a non-empty
    JSON text parses to. *)
Definition mapped_over (JSON_parse : string → option JsValue) (refs : JsValue)
    (items : list JsValue) : Prop :=
  refs = JArray items
  ∨ ∃ text, refs = JString text ∧ text ≠ "" ∧ JSON_parse text = Some (JArray items).

(** ** What a run reads

    The handler reads a job's [checkListSet] and [documents], the prompt
    templates and the review results; it writes a job's [nextActionStatus]
    and [updatedAt]. Two databases have the [same_inputs] when they differ at
    most in what the handler writes. *)
Definition job_inputs (job : ReviewJob) : CheckListSet * list Document :=
  (job_checkListSet job, job_documents job).

Definition same_inputs (d1 d2 : Database) : Prop :=
  db_promptTemplate d1 = db_promptTemplate d2
  ∧ db_reviewResult d1 = db_reviewResult d2
  ∧ ∀ id, job_inputs <$> db_reviewJob d1 !! id = job_inputs <$> db_reviewJob d2 !! id.

(** The statuses of a list of calls' writes, in order. *)
Definition written (cs : list DbCall) : list NEXT_ACTION_STATUS.t :=
  omap (λ c, match c with ReviewJobUpdate _ status _ => Some status | _ => None end) cs.

(** ** Sample data *)

Module Sample.

(** A stand-in for [JSON.parse] on the few texts the samples hold; every
    other text is taken as invalid. *)
Definition JSON_parse (text : string) : option JsValue :=
  if String.eqb text "[]" then Some (JArray [])
  else if String.eqb text "[null]" then Some (JArray [JNull])
  else if String.eqb text "null" then Some JNull
  else if String.eqb text "{}" then Some (JObject ∅)
  else None.

Definition three : JsNumber := S754_finite false 3 0.
Definition three_quarters : JsNumber := S754_finite false 3 (-2).

Definition documents : list Document :=
  [ {| doc_id := "doc-1"; doc_filename := "contract.pdf" |};
    {| doc_id := "doc-2"; doc_filename := "" |} ].

Definition job (enabled : bool) (templateId : option string) : ReviewJob :=
  {| job_checkListSet :=
       {| enableNextAction := enabled; nextActionTemplateId := templateId |};
     job_documents := documents;
     job_nextActionStatus := NEXT_ACTION_STATUS.PENDING;
     job_updatedAt := 0 |}.

Definition jobs : gmap string ReviewJob :=
  <["job-custom" := job true (Some "tpl-1")]>
  (<["job-off" := job false (Some "tpl-1")]>
  (<["job-default" := job true None]>
  (<["job-empty-id" := job true (Some "")]>
  (<["job-dangling" := job true (Some "tpl-gone")]>
  (<["job-null-ref" := job true None]> ∅))))).

Definition templates : gmap string PromptTemplate :=
  <["tpl-1" := {| tpl_prompt := "List what to fix: {{all_results}}";
                  tpl_toolConfigurationId := Some "tc-1" |}]> ∅.

Definition item (jobId checkName : string) (parent : option string)
    (verdict : string) (refs : JsValue) : ReviewResult :=
  {| rr_reviewJobId := jobId;
     rr_checkList :=
       {| cl_id := "cl-" +:+ checkName;
          cl_name := checkName;
          cl_description := Some "Both parties are named";
          cl_parent := (λ n, {| parent_name := n |}) <$> parent |};
     rr_result := Some verdict;
     rr_userOverride := false;
     rr_explanation := Some "Only one party is named";
     rr_extractedText := None;
     rr_confidenceScore := Some three_quarters;
     rr_userComment := None;
     rr_sourceReferences := refs |}.

Definition page_three_of (documentId : string) : JsValue :=
  JObject (<["documentId" := JString documentId]> (<["pageNumber" := JNum three]> ∅)).

Definition results : list ReviewResult :=
  [ item "job-custom" "Parties" (Some "Contract") "fail" (JArray [page_three_of "doc-1"]);
    item "job-null-ref" "Seal" None "fail" (JArray [JNull]);
    item "job-custom" "Signature" None "pass" (JString "[]");
    item "job-empty-id" "Date" None "pass" JNull ].

Definition toolConfiguration : ToolConfiguration :=
  {| cfg_id := "tc-1";
     cfg_name := "Knowledge base search";
     cfg_knowledgeBase := Some [ {| knowledgeBaseId := "KB1"; kb_description := None |} ];
     cfg_codeInterpreter := false;
     cfg_mcpConfig := None |}.

(** A repository that has lost its connection. *)
Definition repo_down (id : string) : Outcome ToolConfiguration :=
  Threw (RepositoryError "Connection refused").

Definition repo (id : string) : Outcome ToolConfiguration :=
  if String.eqb id "tc-1" then Returned toolConfiguration
  else Threw (RepositoryError ("Tool configuration not found: " +:+ id)).

Definition world_at (start : Z) (templates : gmap string PromptTemplate)
    (repo : string → Outcome ToolConfiguration) : World :=
  {| db := {| db_reviewJob := jobs; db_promptTemplate := templates; db_reviewResult := results |};
     toolConfigRepo := repo;
     clock := λ k, (Z.of_nat k + start)%Z;
     dates := 0;
     calls := [];
     console := [] |}.

Definition world : World := world_at 1700000000000 templates repo.

Definition params (id : string) : PreGenerateNextActionParams :=
  {| reviewJobId := id; userId := None |}.

End Sample.

(** * Proofs *)

Section HandlerProofs.

Variable JSON_parse : string → option JsValue.

Local Ltac run_monad :=
  unfold mbind, M_bind, mret, M_ret, lift, try_catch, console_log, console_error, newDate,
    reviewJob_findUnique, reviewJob_update, promptTemplate_findUnique,
    reviewResult_findMany, toolConfigRepo_findById; cbn.

(** Steps 5 to 7 on their own. *)
Lemma prepare_run id job promptToUse toolConfigurationId (w : World) :
  let results := filter (λ r, rr_reviewJobId r = id) (db_reviewResult (db w)) in
  match array_map (enrich JSON_parse (documentMap_of job)) results with
  | Threw e =>
      (prepare JSON_parse id job promptToUse toolConfigurationId w).1 = Threw e
      ∧ db (prepare JSON_parse id job promptToUse toolConfigurationId w).2 = db w
      ∧ calls (prepare JSON_parse id job promptToUse toolConfigurationId w).2
        = calls w ++ [ReviewResultFindMany id]
  | Returned enriched =>
      (prepare JSON_parse id job promptToUse toolConfigurationId w).1 =
        Returned
          {| shouldGenerate := true;
             promptTemplate := Some {| prompt := promptToUse |};
             templateData := Some {| allResults := enriched |};
             toolConfiguration := fetched (toolConfigRepo w) toolConfigurationId;
             message := None |}
      ∧ db (prepare JSON_parse id job promptToUse toolConfigurationId w).2 = db w
      ∧ calls (prepare JSON_parse id job promptToUse toolConfigurationId w).2
        = calls w ++ [ReviewResultFindMany id] ++ lookups toolConfigurationId
  end.
Proof.
  intros results. unfold prepare, documentMap_of, fetched, lookups. run_monad.
  fold results. destruct (array_map _ results) as [enriched|e]; cbn; [|done].
  destruct (if_truthy toolConfigurationId) as [tc|]; cbn.
  - destruct (toolConfigRepo w tc); cbn; by rewrite <- ?app_assoc.
  - done.
Qed.

(** Every run follows one of the five paths. *)
Lemma preGenerateNextAction_path params (w : World) :
  Path JSON_parse params w
    (preGenerateNextAction JSON_parse params w).1
    (preGenerateNextAction JSON_parse params w).2.
Proof.
  unfold preGenerateNextAction. run_monad.
  destruct (db_reviewJob (db w) !! reviewJobId params) as [job|] eqn:Hjob; cbn.
  2: { by apply job_missing. }
  destruct (enableNextAction (job_checkListSet job)) eqn:Hflag; cbn.
  2: { rewrite Hjob; cbn. eapply next_action_disabled; eauto; cbn; by rewrite <- ?app_assoc. }
  rewrite Hjob; cbn.
  destruct (if_truthy (nextActionTemplateId (job_checkListSet job))) as [tid|] eqn:Htid; cbn.
  - destruct (db_promptTemplate (db w) !! tid) as [tpl|] eqn:Htpl; cbn.
    + match goal with |- context [prepare _ ?i ?j ?p ?t ?w0] =>
        pose proof (prepare_run i j p t w0) as Hrun; cbn in Hrun;
        destruct (prepare JSON_parse i j p t w0) as [o w'] end.
      cbn in *.
      destruct (array_map _ _) as [enriched|e] eqn:Hmap; destruct Hrun as (-> & Hdb & Hcalls).
      * eapply prepared; eauto using custom_prompt; rewrite ?Hcalls; cbn;
          by rewrite <- ?app_assoc.
      * eapply template_data_threw; eauto using custom_prompt; rewrite ?Hcalls; cbn;
          by rewrite <- ?app_assoc.
    + rewrite lookup_insert_eq; cbn.
      eapply template_missing; eauto; cbn; by rewrite <- ?app_assoc.
  - match goal with |- context [prepare _ ?i ?j ?p ?t ?w0] =>
      pose proof (prepare_run i j p t w0) as Hrun; cbn in Hrun;
      destruct (prepare JSON_parse i j p t w0) as [o w'] end.
    cbn in *.
    destruct (array_map _ _) as [enriched|e] eqn:Hmap; destruct Hrun as (-> & Hdb & Hcalls).
    + apply (prepared JSON_parse params w job DEFAULT_NEXT_ACTION_PROMPT None [] enriched w');
        auto using default_prompt; rewrite ?Hcalls; cbn; by rewrite <- ?app_assoc.
    + apply (template_data_threw JSON_parse params w job DEFAULT_NEXT_ACTION_PROMPT None [] e w');
        auto using default_prompt; rewrite ?Hcalls; cbn; by rewrite <- ?app_assoc.
Qed.

Lemma reviewResult_findMany_fetched params (w : World) :
  (reviewResult_findMany (reviewJobId params) w).1 = Returned (fetched_results params w).
Proof. reflexivity. Qed.

Lemma issued_app (w w' : World) cs : calls w' = calls w ++ cs → issued w w' = cs.
Proof. intros Hcalls. unfold issued. rewrite Hcalls. apply drop_app_length. Qed.

Lemma status_of_write id status t job d :
  status_of (write_status id status t job d) id = Some status.
Proof. unfold status_of, write_status; cbn. by rewrite lookup_insert_eq. Qed.

Lemma writes_app cs cs' : writes (cs ++ cs') = writes cs ++ writes cs'.
Proof. apply List.filter_app. Qed.

Lemma Resolved_no_write w job promptToUse toolConfigurationId step4 :
  Resolved w job promptToUse toolConfigurationId step4 → writes step4 = [].
Proof. by destruct 1. Qed.

Lemma lookups_no_write toolConfigurationId : writes (lookups toolConfigurationId) = [].
Proof. unfold lookups. by destruct (if_truthy _). Qed.

(** Case analysis on the path of the run from [w] with [params]: the outcome
    becomes [o] and the world left behind [w']. *)
Local Ltac by_path params w o w' :=
  let HP := fresh "HP" in
  pose proof (preGenerateNextAction_path params w) as HP;
  destruct (preGenerateNextAction JSON_parse params w) as [o w'];
  cbn [fst snd] in *;
  destruct HP as
    [ ? Hnone Hdb Hcalls
    | pjob ? Hsome Hflag Hdb Hcalls
    | pjob ptid ? Hsome Hflag Hid Htemplate Hdb Hcalls
    | pjob pprompt ptool pstep4 perr ? Hsome Hflag Hstep4 Hmap Hdb Hcalls
    | pjob pprompt ptool pstep4 penriched ? Hsome Hflag Hstep4 Hmap Hdb Hcalls ];
  repeat match goal with
         | H : calls _ = calls _ ++ _ |- _ => apply issued_app in H
         end;
  unfold first_date, second_date in *.

(** C3. When no review job has the id, the handler returns
    [{ shouldGenerate: false, message: "Review job not found" }], leaves the
    database as it was and issues no write: its only call is the lookup of
    the job. *)
Theorem job_not_found_no_write params (w : World) :
  db_reviewJob (db w) !! reviewJobId params = None →
  (preGenerateNextAction JSON_parse params w).1 =
    Returned {| shouldGenerate := false; promptTemplate := None; templateData := None;
                toolConfiguration := None; message := Some "Review job not found" |}
  ∧ db (preGenerateNextAction JSON_parse params w).2 = db w
  ∧ issued w (preGenerateNextAction JSON_parse params w).2
    = [ReviewJobFindUnique (reviewJobId params)]
  ∧ writes (issued w (preGenerateNextAction JSON_parse params w).2) = [].
Proof.
  intros Hjob. by_path params w o w'; try congruence.
  by rewrite Hcalls.
Qed.

(** C1. For an existing job, the handler returns
    [{ shouldGenerate: false, message: "Next Action is disabled" }] and
    writes [SKIPPED] exactly when [enableNextAction] is false; when the flag
    is true its first write is [PROCESSING] and it goes on to issue further
    calls. *)
Theorem disabled_iff_flag_off params (w : World) job :
  db_reviewJob (db w) !! reviewJobId params = Some job →
  ((preGenerateNextAction JSON_parse params w).1 =
     Returned {| shouldGenerate := false; promptTemplate := None; templateData := None;
                 toolConfiguration := None; message := Some "Next Action is disabled" |}
   ∧ writes (issued w (preGenerateNextAction JSON_parse params w).2)
     = [ReviewJobUpdate (reviewJobId params) NEXT_ACTION_STATUS.SKIPPED (clock w (dates w))]
   ∧ status_of (db (preGenerateNextAction JSON_parse params w).2) (reviewJobId params)
     = Some NEXT_ACTION_STATUS.SKIPPED
   ↔ enableNextAction (job_checkListSet job) = false)
  ∧ (enableNextAction (job_checkListSet job) = true →
     ∃ rest, rest ≠ [] ∧
       issued w (preGenerateNextAction JSON_parse params w).2 =
         ReviewJobFindUnique (reviewJobId params)
         :: ReviewJobUpdate (reviewJobId params) NEXT_ACTION_STATUS.PROCESSING
              (clock w (dates w))
         :: rest).
Proof.
  intros Hjob. by_path params w o w'; simplify_eq; rewrite Hcalls, ?Hdb.
  - split; [|congruence]. split; [done|]. intros _.
    split_and!; [done|done|]. apply status_of_write.
  - split.
    + split; [intros (? & _); discriminate | congruence].
    + intros _. eexists; split; [|reflexivity]. done.
  - split.
    + split; [intros (? & _); discriminate | congruence].
    + intros _. cbn. eexists; split; [|reflexivity].
      intros Heq. by apply app_eq_nil in Heq as [_ ?].
  - split.
    + split; [intros (? & _); discriminate | congruence].
    + intros _. cbn. eexists; split; [|reflexivity].
      intros Heq. by apply app_eq_nil in Heq as [_ ?].
Qed.

(** C9. A result the handler returns has [shouldGenerate] true exactly when
    [promptTemplate] and [templateData] are both present, and when
    [shouldGenerate] is false it carries a non-empty [message] and neither
    [promptTemplate], [templateData] nor [toolConfiguration]. *)
Theorem result_invariant params (w w' : World) r :
  preGenerateNextAction JSON_parse params w = (Returned r, w') →
  (shouldGenerate r = true ↔ is_Some (promptTemplate r) ∧ is_Some (templateData r))
  ∧ (shouldGenerate r = false →
     (∃ text, message r = Some text ∧ text ≠ "")
     ∧ promptTemplate r = None ∧ templateData r = None ∧ toolConfiguration r = None).
Proof.
  intros Hrun. pose proof (preGenerateNextAction_path params w) as HP.
  rewrite Hrun in HP; cbn [fst snd] in HP.
  inversion HP; subst; cbn.
  1-3: split; [split; [done | by intros [[? ?] _]] | intros _; split_and!; eauto].
  split; [split; eauto | done].
Qed.

(** C2, amended. For an existing job with [enableNextAction] true and a
    [nextActionTemplateId] that is neither null nor empty, if no prompt
    template has that id the handler writes [PROCESSING] and then [FAILED],
    leaves the job [FAILED], and returns
    [{ shouldGenerate: false, message: "Prompt template not found" }] with
    no [promptTemplate], [templateData] or [toolConfiguration]. *)
Theorem template_not_found_fails params (w : World) job templateId :
  db_reviewJob (db w) !! reviewJobId params = Some job →
  enableNextAction (job_checkListSet job) = true →
  nextActionTemplateId (job_checkListSet job) = Some templateId →
  templateId ≠ "" →
  db_promptTemplate (db w) !! templateId = None →
  (preGenerateNextAction JSON_parse params w).1 =
    Returned {| shouldGenerate := false; promptTemplate := None; templateData := None;
                toolConfiguration := None; message := Some "Prompt template not found" |}
  ∧ writes (issued w (preGenerateNextAction JSON_parse params w).2) =
      [ReviewJobUpdate (reviewJobId params) NEXT_ACTION_STATUS.PROCESSING (clock w (dates w));
       ReviewJobUpdate (reviewJobId params) NEXT_ACTION_STATUS.FAILED (clock w (S (dates w)))]
  ∧ status_of (db (preGenerateNextAction JSON_parse params w).2) (reviewJobId params)
    = Some NEXT_ACTION_STATUS.FAILED.
Proof.
  intros Hjob Hon Hnamed Hne Habsent.
  assert (if_truthy (nextActionTemplateId (job_checkListSet job)) = Some templateId) as Htruthy.
  { rewrite Hnamed; cbn. by apply String.eqb_neq in Hne as ->. }
  by_path params w o w'; simplify_eq; try congruence.
  - rewrite Hcalls, Hdb. split_and!; [done|done|apply status_of_write].
  - destruct Hstep4; simplify_eq.
  - destruct Hstep4; simplify_eq.
Qed.

(** C4, amended. A run that returns [shouldGenerate = true] returns the
    stored prompt of the template named by the job's [nextActionTemplateId]
    when that id is neither null nor empty (and then the template exists),
    and the built-in [DEFAULT_NEXT_ACTION_PROMPT] when the id is null or
    empty. *)
Theorem generated_prompt params (w w' : World) r :
  preGenerateNextAction JSON_parse params w = (Returned r, w') →
  shouldGenerate r = true →
  ∃ job, db_reviewJob (db w) !! reviewJobId params = Some job
    ∧ (∀ templateId,
         nextActionTemplateId (job_checkListSet job) = Some templateId →
         templateId ≠ "" →
         ∃ template, db_promptTemplate (db w) !! templateId = Some template
           ∧ promptTemplate r = Some {| prompt := tpl_prompt template |})
    ∧ (nextActionTemplateId (job_checkListSet job) = None
       ∨ nextActionTemplateId (job_checkListSet job) = Some "" →
       promptTemplate r = Some {| prompt := DEFAULT_NEXT_ACTION_PROMPT |}).
Proof.
  intros Hrun Htrue. pose proof (preGenerateNextAction_path params w) as HP.
  rewrite Hrun in HP; cbn [fst snd] in HP.
  inversion HP as [ | | | | job p tc step4 enriched ? Hjob Hon Hstep4 ]; subst;
    try discriminate Htrue.
  exists job. split; [done|]. cbn. destruct Hstep4 as [Hid | tid tpl Hid Htpl].
  - split.
    + intros tid Heq Hne. rewrite Heq in Hid; cbn in Hid.
      apply String.eqb_neq in Hne. by rewrite Hne in Hid.
    + done.
  - split.
    + intros tid' Heq Hne. rewrite Heq in Hid; cbn in Hid.
      apply String.eqb_neq in Hne. rewrite Hne in Hid. simplify_eq. eauto.
    + intros [Heq | Heq]; by rewrite Heq in Hid.
Qed.

(** C5. In a run that looks a tool configuration up and in which that lookup
    throws, the handler still returns [shouldGenerate = true] with
    [promptTemplate] and [templateData] present and no [toolConfiguration];
    the run's only write is the [PROCESSING] of step 3, and the job is left
    [PROCESSING]. *)
Theorem tool_lookup_failure_tolerated params (w : World) id e :
  ToolConfigurationFindById id ∈ issued w (preGenerateNextAction JSON_parse params w).2 →
  toolConfigRepo w id = Threw e →
  (∃ promptToUse data,
     (preGenerateNextAction JSON_parse params w).1 =
       Returned {| shouldGenerate := true;
                   promptTemplate := Some {| prompt := promptToUse |};
                   templateData := Some data;
                   toolConfiguration := None;
                   message := None |})
  ∧ writes (issued w (preGenerateNextAction JSON_parse params w).2) =
      [ReviewJobUpdate (reviewJobId params) NEXT_ACTION_STATUS.PROCESSING (clock w (dates w))]
  ∧ status_of (db (preGenerateNextAction JSON_parse params w).2) (reviewJobId params)
    = Some NEXT_ACTION_STATUS.PROCESSING.
Proof.
  intros Hin Hthrow. by_path params w o w'; rewrite Hcalls in Hin.
  - by apply list_elem_of_singleton in Hin.
  - by repeat (apply elem_of_cons in Hin as [Hin|Hin]; [discriminate|]);
      apply elem_of_nil in Hin.
  - by repeat (apply elem_of_cons in Hin as [Hin|Hin]; [discriminate|]);
      apply elem_of_nil in Hin.
  - destruct Hstep4; cbn in Hin;
      by repeat (apply elem_of_cons in Hin as [Hin|Hin]; [discriminate|]);
        apply elem_of_nil in Hin.
  - assert (if_truthy ptool = Some id) as Hwanted.
    { unfold lookups in Hin.
      destruct Hstep4, (if_truthy _); cbn in Hin;
        repeat (apply elem_of_cons in Hin as [Hin|Hin]; [congruence|]);
        by apply elem_of_nil in Hin. }
    rewrite Hcalls, Hdb. split_and!.
    + unfold fetched. rewrite Hwanted, Hthrow. eauto.
    + by rewrite !writes_app, (Resolved_no_write _ _ _ _ _ Hstep4), lookups_no_write.
    + apply status_of_write.
Qed.

(** *** Arrays *)

Lemma array_map_Returned {A B} (f : A → Outcome B) l out :
  array_map f l = Returned out → Forall2 (λ x y, f x = Returned y) l out.
Proof.
  revert out. induction l as [|x l IH]; intros out; cbn.
  - intros [= <-]. constructor.
  - unfold mbind, Outcome_bind.
    destruct (f x) as [y|] eqn:Hx; [|done].
    destruct (array_map f l) as [ys|]; [|done].
    intros [= <-]. constructor; auto.
Qed.




(** *** Template data *)

Lemma enrich_Returned documentMap item out :
  enrich JSON_parse documentMap item = Returned out →
  checkList out =
    {| name := cl_name (rr_checkList item);
       description := cl_description (rr_checkList item);
       parentName := parent_name <$> cl_parent (rr_checkList item) |}
  ∧ result out = rr_result item
  ∧ userOverride out = rr_userOverride item
  ∧ explanation out = rr_explanation item
  ∧ extractedText out = rr_extractedText item
  ∧ confidenceScore out = rr_confidenceScore item
  ∧ userComment out = rr_userComment item.
Proof.
  unfold enrich, mbind, Outcome_bind.
  destruct (resolveSourceReferences _ _ _); [|done]. by intros [= <-].
Qed.

(** C6. In a returned result, [templateData.allResults] has one element per
    review result fetched for the job, in the same order, and each element
    carries the result's [checkList.name] and [checkList.description], the
    name of the parent check item as [parentName] (null without a parent),
    and its [result], [userOverride], [explanation], [extractedText],
    [confidenceScore] and [userComment] unchanged. *)
Theorem allResults_mirror_reviewResults params (w w' : World) r data :
  preGenerateNextAction JSON_parse params w = (Returned r, w') →
  templateData r = Some data →
  length (allResults data) = length (fetched_results params w)
  ∧ ∀ i item, fetched_results params w !! i = Some item →
      ∃ out, allResults data !! i = Some out
        ∧ name (checkList out) = cl_name (rr_checkList item)
        ∧ description (checkList out) = cl_description (rr_checkList item)
        ∧ parentName (checkList out) =
            match cl_parent (rr_checkList item) with
            | Some parent => Some (parent_name parent)
            | None => None
            end
        ∧ result out = rr_result item
        ∧ userOverride out = rr_userOverride item
        ∧ explanation out = rr_explanation item
        ∧ extractedText out = rr_extractedText item
        ∧ confidenceScore out = rr_confidenceScore item
        ∧ userComment out = rr_userComment item.
Proof.
  intros Hrun Hdata. pose proof (preGenerateNextAction_path params w) as HP.
  rewrite Hrun in HP; cbn [fst snd] in HP.
  inversion HP as [ | | | | job p tc step4 enriched ? _ _ _ Hmap ]; subst;
    try discriminate Hdata.
  injection Hdata as <-. cbn [allResults].
  apply array_map_Returned in Hmap.
  split; [symmetry; by eapply Forall2_length|].
  intros i item Hi.
  destruct (Forall2_lookup_l _ _ _ _ _ Hmap Hi) as (out & Hout & Henrich).
  apply enrich_Returned in Henrich as (Hcl & ? & ? & ? & ? & ? & ?).
  exists out. rewrite Hcl; cbn. by split_and!.
Qed.

(** *** Determinism *)

Lemma Resolved_deterministic (w1 w2 : World) job p1 tc1 s1 p2 tc2 s2 :
  db w1 = db w2 →
  Resolved w1 job p1 tc1 s1 → Resolved w2 job p2 tc2 s2 →
  p1 = p2 ∧ tc1 = tc2 ∧ s1 = s2.
Proof.
  intros Hdb [Hid1 | tid1 tpl1 Hid1 Htpl1] [Hid2 | tid2 tpl2 Hid2 Htpl2];
    rewrite ?Hdb in *; simplify_eq; done.
Qed.

Lemma fetched_ext repo1 repo2 tc :
  (∀ id, repo1 id = repo2 id) → fetched repo1 tc = fetched repo2 tc.
Proof. intros Hrepo. unfold fetched. destruct (if_truthy tc); [|done]. by rewrite Hrepo. Qed.

(** Two runs from worlds with the same tables and the same repository follow
    the same path: same outcome, same calls up to the timestamps. *)
Lemma Path_deterministic params (w1 w2 : World) o1 w1' o2 w2' :
  db w1 = db w2 →
  (∀ id, toolConfigRepo w1 id = toolConfigRepo w2 id) →
  Path JSON_parse params w1 o1 w1' → Path JSON_parse params w2 o2 w2' →
  o1 = o2
  ∧ untimed <$> issued w1 w1' = untimed <$> issued w2 w2'
  ∧ (first_date w1 = first_date w2 → second_date w1 = second_date w2 →
     issued w1 w1' = issued w2 w2' ∧ db w1' = db w2').
Proof.
  intros Hdb Hrepo HP1 HP2.
  assert (fetched_results params w1 = fetched_results params w2) as Hresults.
  { unfold fetched_results. by rewrite Hdb. }
  destruct HP1 as
    [ ? Hnone1 Hdb1 Hcalls1
    | j1 ? Hsome1 Hflag1 Hdb1 Hcalls1
    | j1 t1 ? Hsome1 Hflag1 Hid1 Htemplate1 Hdb1 Hcalls1
    | j1 p1 tc1 s1 e1 ? Hsome1 Hflag1 Hstep1 Hmap1 Hdb1 Hcalls1
    | j1 p1 tc1 s1 en1 ? Hsome1 Hflag1 Hstep1 Hmap1 Hdb1 Hcalls1 ];
  destruct HP2 as
    [ ? Hnone2 Hdb2 Hcalls2
    | j2 ? Hsome2 Hflag2 Hdb2 Hcalls2
    | j2 t2 ? Hsome2 Hflag2 Hid2 Htemplate2 Hdb2 Hcalls2
    | j2 p2 tc2 s2 e2 ? Hsome2 Hflag2 Hstep2 Hmap2 Hdb2 Hcalls2
    | j2 p2 tc2 s2 en2 ? Hsome2 Hflag2 Hstep2 Hmap2 Hdb2 Hcalls2 ];
  apply issued_app in Hcalls1, Hcalls2; rewrite Hcalls1, Hcalls2, Hdb1, Hdb2;
  rewrite Hdb in *; simplify_eq; try congruence;
  try (destruct Hstep1; simplify_eq; congruence);
  try (destruct Hstep2; simplify_eq; congruence);
  try (destruct (Resolved_deterministic _ _ _ _ _ _ _ _ _ Hdb Hstep1 Hstep2)
         as (-> & -> & ->);
       rewrite Hresults in Hmap1; rewrite Hmap1 in Hmap2; simplify_eq);
  (split_and!;
   [ by rewrite ?(fetched_ext _ _ _ Hrepo)
   | by rewrite ?fmap_app
   | intros Hfirst Hsecond; by rewrite ?Hfirst, ?Hsecond ]).
Qed.

Lemma Path_timestamps params (w : World) o w' :
  Path JSON_parse params w o w' →
  ∀ k id status updatedAt,
    writes (issued w w') !! k = Some (ReviewJobUpdate id status updatedAt) →
    updatedAt = clock w (dates w + k).
Proof.
  intros HP.
  destruct HP as
    [ ? Hnone Hdb Hcalls
    | job ? Hsome Hflag Hdb Hcalls
    | job tid ? Hsome Hflag Hid Htemplate Hdb Hcalls
    | job p tc step4 e ? Hsome Hflag Hstep4 Hmap Hdb Hcalls
    | job p tc step4 enriched ? Hsome Hflag Hstep4 Hmap Hdb Hcalls ];
    apply issued_app in Hcalls; rewrite Hcalls;
    rewrite ?writes_app, ?(Resolved_no_write _ _ _ _ _ Hstep4), ?lookups_no_write;
    unfold first_date, second_date; cbn.
  - by intros [|k] ? ? ?.
  - intros [|[|k]] ? ? ? [=]; subst. by rewrite Nat.add_0_r.
  - intros [|[|[|k]]] ? ? ? [=]; subst; [by rewrite Nat.add_0_r | by rewrite Nat.add_1_r].
  - intros [|[|k]] ? ? ? [=]; subst. by rewrite Nat.add_0_r.
  - intros [|[|k]] ? ? ? [=]; subst. by rewrite Nat.add_0_r.
Qed.

(** Two runs from worlds with the same tables and the same repository issue
    identical calls exactly when the clock readings taken for their writes
    agree, and then they leave the same tables. *)
Lemma Path_calls_agree params (w1 w2 : World) o1 w1' o2 w2' :
  db w1 = db w2 →
  (∀ id, toolConfigRepo w1 id = toolConfigRepo w2 id) →
  Path JSON_parse params w1 o1 w1' → Path JSON_parse params w2 o2 w2' →
  (issued w1 w1' = issued w2 w2'
   ↔ ∀ k, k < length (writes (issued w1 w1')) →
       clock w1 (dates w1 + k) = clock w2 (dates w2 + k))
  ∧ ((∀ k, k < length (writes (issued w1 w1')) →
        clock w1 (dates w1 + k) = clock w2 (dates w2 + k)) →
     db w1' = db w2').
Proof.
  intros Hdb Hrepo HP1 HP2.
  assert (fetched_results params w1 = fetched_results params w2) as Hresults.
  { unfold fetched_results. by rewrite Hdb. }
  destruct HP1 as
    [ ? Hnone1 Hdb1 Hcalls1
    | j1 ? Hsome1 Hflag1 Hdb1 Hcalls1
    | j1 t1 ? Hsome1 Hflag1 Hid1 Htemplate1 Hdb1 Hcalls1
    | j1 p1 tc1 s1 e1 ? Hsome1 Hflag1 Hstep1 Hmap1 Hdb1 Hcalls1
    | j1 p1 tc1 s1 en1 ? Hsome1 Hflag1 Hstep1 Hmap1 Hdb1 Hcalls1 ];
  destruct HP2 as
    [ ? Hnone2 Hdb2 Hcalls2
    | j2 ? Hsome2 Hflag2 Hdb2 Hcalls2
    | j2 t2 ? Hsome2 Hflag2 Hid2 Htemplate2 Hdb2 Hcalls2
    | j2 p2 tc2 s2 e2 ? Hsome2 Hflag2 Hstep2 Hmap2 Hdb2 Hcalls2
    | j2 p2 tc2 s2 en2 ? Hsome2 Hflag2 Hstep2 Hmap2 Hdb2 Hcalls2 ];
  apply issued_app in Hcalls1, Hcalls2; rewrite Hcalls1, Hcalls2, Hdb1, Hdb2;
  rewrite Hdb in *; simplify_eq; try congruence;
  try (destruct Hstep1; simplify_eq; congruence);
  try (destruct Hstep2; simplify_eq; congruence);
  try (destruct (Resolved_deterministic _ _ _ _ _ _ _ _ _ Hdb Hstep1 Hstep2)
         as (-> & -> & ->);
       rewrite Hresults in Hmap1; rewrite Hmap1 in Hmap2; simplify_eq);
  rewrite ?writes_app, ?(Resolved_no_write _ _ _ _ _ Hstep2), ?lookups_no_write;
  unfold first_date, second_date; cbn.
  - split; [split; [intros _ k Hk; lia | done] | done].
  - split; [split|].
    + intros [= Hfirst] [|k] Hk; [by rewrite !Nat.add_0_r | lia].
    + intros Hread. specialize (Hread 0). rewrite !Nat.add_0_r in Hread.
      by rewrite Hread; [|lia].
    + intros Hread. specialize (Hread 0). rewrite !Nat.add_0_r in Hread.
      by rewrite Hread; [|lia].
  - split; [split|].
    + intros [= Hfirst Hsecond] [|[|k]] Hk;
        [by rewrite !Nat.add_0_r | by rewrite !Nat.add_1_r | lia].
    + intros Hread. pose proof (Hread 0) as Hfirst. pose proof (Hread 1) as Hsecond.
      rewrite !Nat.add_0_r in Hfirst. rewrite !Nat.add_1_r in Hsecond.
      by rewrite Hfirst, Hsecond; [| lia | lia].
    + intros Hread. pose proof (Hread 0) as Hfirst. pose proof (Hread 1) as Hsecond.
      rewrite !Nat.add_0_r in Hfirst. rewrite !Nat.add_1_r in Hsecond.
      by rewrite Hfirst, Hsecond; [| lia | lia].
  - split; [split|].
    + intros [= Hfirst] [|k] Hk; [by rewrite !Nat.add_0_r | lia].
    + intros Hread. specialize (Hread 0). rewrite !Nat.add_0_r in Hread.
      by rewrite Hread; [|lia].
    + intros Hread. specialize (Hread 0). rewrite !Nat.add_0_r in Hread.
      by rewrite Hread; [|lia].
  - split; [split|].
    + intros [= Hfirst] [|k] Hk; [by rewrite !Nat.add_0_r | lia].
    + intros Hread. specialize (Hread 0). rewrite !Nat.add_0_r in Hread.
      by rewrite Hread; [|lia].
    + intros Hread. specialize (Hread 0). rewrite !Nat.add_0_r in Hread.
      by rewrite Hread; [|lia].
Qed.

(** C7, amended. With the database tables and the tool-configuration
    repository as inputs, two runs with the same params return the same
    outcome and issue the same calls in the same order, the writes among
    them with the same row and status, whatever the calls, console lines and
    clock readings that came before. The [updatedAt] of the [k]-th write of
    a run is the [k]-th reading [new Date()] takes in that run, so the calls
    of the two runs are identical exactly when those readings agree for
    every write made (for a run without a write, always), and then the
    tables left behind are identical too. *)
Theorem deterministic_up_to_clock params (w1 w2 : World) :
  db w1 = db w2 →
  (∀ id, toolConfigRepo w1 id = toolConfigRepo w2 id) →
  (preGenerateNextAction JSON_parse params w1).1 = (preGenerateNextAction JSON_parse params w2).1
  ∧ untimed <$> issued w1 (preGenerateNextAction JSON_parse params w1).2
    = untimed <$> issued w2 (preGenerateNextAction JSON_parse params w2).2
  ∧ (∀ k id status updatedAt,
       writes (issued w1 (preGenerateNextAction JSON_parse params w1).2) !! k
       = Some (ReviewJobUpdate id status updatedAt) →
       updatedAt = clock w1 (dates w1 + k))
  ∧ (∀ k id status updatedAt,
       writes (issued w2 (preGenerateNextAction JSON_parse params w2).2) !! k
       = Some (ReviewJobUpdate id status updatedAt) →
       updatedAt = clock w2 (dates w2 + k))
  ∧ (issued w1 (preGenerateNextAction JSON_parse params w1).2
     = issued w2 (preGenerateNextAction JSON_parse params w2).2
     ↔ ∀ k,
         k < length (writes (issued w1 (preGenerateNextAction JSON_parse params w1).2)) →
         clock w1 (dates w1 + k) = clock w2 (dates w2 + k))
  ∧ ((∀ k,
        k < length (writes (issued w1 (preGenerateNextAction JSON_parse params w1).2)) →
        clock w1 (dates w1 + k) = clock w2 (dates w2 + k)) →
     db (preGenerateNextAction JSON_parse params w1).2
     = db (preGenerateNextAction JSON_parse params w2).2).
Proof.
  intros Hdb Hrepo.
  pose proof (preGenerateNextAction_path params w1) as HP1.
  pose proof (preGenerateNextAction_path params w2) as HP2.
  destruct (Path_deterministic params w1 w2 _ _ _ _ Hdb Hrepo HP1 HP2) as (Hsame & Hcalls & _).
  destruct (Path_calls_agree params w1 w2 _ _ _ _ Hdb Hrepo HP1 HP2) as [Hagree Htables].
  split_and!;
    [ exact Hsame | exact Hcalls | by apply (Path_timestamps params w1 _ _ HP1)
    | by apply (Path_timestamps params w2 _ _ HP2) | exact Hagree | exact Htables ].
Qed.

End HandlerProofs.

(** ** The editor *)

Lemma or_null_not_undefined {A} (a : Frontend.Optional A) :
  Frontend.or_null a ≠ Frontend.Undefined.
Proof. by destruct a. Qed.

(** Whatever happened before, a request saved by an editor of another type
    than [NEXT_ACTION] has no [toolConfigurationId], and one saved by a
    [NEXT_ACTION] editor has one, possibly [null]. *)
Lemma run_saved_requests type st evs request :
  request ∈ (Frontend.run type st evs).2 →
  if Frontend.PromptTemplateType.eqb type Frontend.PromptTemplateType.NEXT_ACTION
  then Frontend.toolConfigurationId request ≠ Frontend.Undefined
  else Frontend.toolConfigurationId request = Frontend.Undefined.
Proof.
  destruct (Frontend.PromptTemplateType.eqb type _) eqn:Htype;
    revert st; induction evs as [|ev evs IH]; intros st; cbn;
    try (by intros ?%elem_of_nil);
    destruct (Frontend.step type st ev) as [st' reqs] eqn:Hstep;
    destruct (Frontend.run type st' evs) as [st'' reqs'] eqn:Hrun; cbn;
    (intros [Hin | Hin]%elem_of_app;
     [ | specialize (IH st'); rewrite Hrun in IH; by apply IH ]);
    destruct ev; cbn in Hstep; rewrite ?Htype in Hstep; simplify_eq;
    try (by apply elem_of_nil in Hin);
    apply list_elem_of_singleton in Hin as ->; cbn; rewrite Htype.
  - apply or_null_not_undefined.
  - done.
Qed.


(** The two copies of the default next-action prompt, the handler's and the
    editor's, are the same text. *)
Lemma DEFAULT_NEXT_ACTION_PROMPT_shared :
  Frontend.DEFAULT_NEXT_ACTION_PROMPT = DEFAULT_NEXT_ACTION_PROMPT.
Proof. reflexivity. Qed.

(** An editor opened on a stored [REVIEW] template that carries a tool
    configuration still saves none. *)
Example review_editor_drops_stored_id :
  let stored :=
    {| Frontend.template_name := "Review";
       Frontend.template_description := None;
       Frontend.template_prompt := "Check {checkName}";
       Frontend.template_toolConfigurationId := Frontend.Value "tc-1" |} in
  Frontend.toolConfigurationId <$>
    (Frontend.run Frontend.PromptTemplateType.REVIEW
       (Frontend.mount (Some stored) Frontend.PromptTemplateType.REVIEW)
       [Frontend.ToolConfigurationSelected "tc-2"; Frontend.NameChanged "Review 2";
        Frontend.FormSubmitted true]).2
  = [Frontend.Undefined].
Proof. reflexivity. Qed.

Example next_action_editor_saves_selection :
  Frontend.toolConfigurationId <$>
    (Frontend.run Frontend.PromptTemplateType.NEXT_ACTION
       (Frontend.mount None Frontend.PromptTemplateType.NEXT_ACTION)
       [Frontend.FormSubmitted false; Frontend.ToolConfigurationSelected "tc-2";
        Frontend.FormSubmitted true; Frontend.ToolConfigurationSelected "";
        Frontend.FormSubmitted true]).2
  = [Frontend.Null; Frontend.Value "tc-2"; Frontend.Null].
Proof. reflexivity. Qed.

(** ** The theorems at work on the sample data *)

Lemma disabled_iff_flag_off_job_off :
  db_reviewJob (db Sample.world) !! "job-off" = Some (Sample.job false (Some "tpl-1"))
  ∧ (preGenerateNextAction Sample.JSON_parse (Sample.params "job-off") Sample.world).1 =
      Returned {| shouldGenerate := false; promptTemplate := None; templateData := None;
                  toolConfiguration := None; message := Some "Next Action is disabled" |}
  ∧ status_of (db (preGenerateNextAction Sample.JSON_parse (Sample.params "job-off")
                     Sample.world).2) "job-off"
    = Some NEXT_ACTION_STATUS.SKIPPED.
Proof.
  assert (db_reviewJob (db Sample.world) !! "job-off" = Some (Sample.job false (Some "tpl-1")))
    as Hjob by (vm_compute; reflexivity).
  split; [exact Hjob|].
  destruct (disabled_iff_flag_off Sample.JSON_parse (Sample.params "job-off") Sample.world
              _ Hjob) as [[_ Hoff] _].
  destruct (Hoff eq_refl) as (Hresult & _ & Hstatus). split; [exact Hresult | exact Hstatus].
Defined.

Lemma job_not_found_no_write_unknown_id :
  db_reviewJob (db Sample.world) !! "job-unknown" = None
  ∧ (preGenerateNextAction Sample.JSON_parse (Sample.params "job-unknown") Sample.world).1 =
      Returned {| shouldGenerate := false; promptTemplate := None; templateData := None;
                  toolConfiguration := None; message := Some "Review job not found" |}
  ∧ db (preGenerateNextAction Sample.JSON_parse (Sample.params "job-unknown") Sample.world).2
    = db Sample.world.
Proof.
  assert (db_reviewJob (db Sample.world) !! "job-unknown" = None)
    as Hjob by (vm_compute; reflexivity).
  split; [exact Hjob|].
  destruct (job_not_found_no_write Sample.JSON_parse (Sample.params "job-unknown")
              Sample.world Hjob) as (Hresult & Hdb & _).
  split; [exact Hresult | exact Hdb].
Defined.

Lemma template_not_found_fails_dangling_id :
  status_of
    (db (preGenerateNextAction Sample.JSON_parse (Sample.params "job-dangling")
           Sample.world).2) "job-dangling"
  = Some NEXT_ACTION_STATUS.FAILED.
Proof.
  apply (template_not_found_fails Sample.JSON_parse (Sample.params "job-dangling")
           Sample.world (Sample.job true (Some "tpl-gone")) "tpl-gone").
  - vm_compute; reflexivity.
  - reflexivity.
  - reflexivity.
  - discriminate.
  - vm_compute; reflexivity.
Defined.

Lemma generated_prompt_custom_template :
  ∃ r w',
    preGenerateNextAction Sample.JSON_parse (Sample.params "job-custom") Sample.world
    = (Returned r, w')
    ∧ shouldGenerate r = true
    ∧ promptTemplate r = Some {| prompt := "List what to fix: {{all_results}}" |}.
Proof.
  destruct (preGenerateNextAction Sample.JSON_parse (Sample.params "job-custom") Sample.world)
    as [[r|e] w'] eqn:Hrun; [|vm_compute in Hrun; discriminate Hrun].
  assert (shouldGenerate r = true) as Htrue.
  { vm_compute in Hrun. by injection Hrun as <- _. }
  exists r, w'. split_and!; [done|done|].
  destruct (generated_prompt Sample.JSON_parse _ _ _ _ Hrun Htrue)
    as (job & Hjob & Hcustom & _).
  vm_compute in Hjob. injection Hjob as <-.
  destruct (Hcustom "tpl-1" eq_refl) as (template & Htemplate & ->); [discriminate|].
  vm_compute in Htemplate. by injection Htemplate as <-.
Defined.

Lemma tool_lookup_failure_tolerated_repo_down :
  let w := Sample.world_at 1700000000000 Sample.templates Sample.repo_down in
  toolConfigRepo w "tc-1" = Threw (RepositoryError "Connection refused")
  ∧ ToolConfigurationFindById "tc-1"
    ∈ issued w (preGenerateNextAction Sample.JSON_parse (Sample.params "job-custom") w).2
  ∧ status_of (db (preGenerateNextAction Sample.JSON_parse (Sample.params "job-custom") w).2)
      "job-custom"
    = Some NEXT_ACTION_STATUS.PROCESSING.
Proof.
  cbv zeta.
  assert (ToolConfigurationFindById "tc-1"
          ∈ issued (Sample.world_at 1700000000000 Sample.templates Sample.repo_down)
              (preGenerateNextAction Sample.JSON_parse (Sample.params "job-custom")
                 (Sample.world_at 1700000000000 Sample.templates Sample.repo_down)).2) as Hin.
  { apply (list_elem_of_lookup_2 _ 4). vm_compute; reflexivity. }
  split_and!; [reflexivity | exact Hin |].
  apply (tool_lookup_failure_tolerated Sample.JSON_parse (Sample.params "job-custom") _
           "tc-1" _ Hin eq_refl).
Defined.

Lemma allResults_mirror_reviewResults_custom_job :
  ∃ r w' data,
    preGenerateNextAction Sample.JSON_parse (Sample.params "job-custom") Sample.world
    = (Returned r, w')
    ∧ templateData r = Some data
    ∧ length (allResults data) = 2%nat
    ∧ (name ∘ checkList) <$> allResults data = ["Parties"; "Signature"].
Proof.
  destruct (preGenerateNextAction Sample.JSON_parse (Sample.params "job-custom") Sample.world)
    as [[r|e] w'] eqn:Hrun; [|vm_compute in Hrun; discriminate Hrun].
  destruct (templateData r) as [data|] eqn:Hdata;
    [|vm_compute in Hrun; injection Hrun as <- _; discriminate Hdata].
  exists r, w', data. split_and!; [done|done| |].
  - by destruct (allResults_mirror_reviewResults Sample.JSON_parse _ _ _ _ _ Hrun Hdata)
      as [-> _].
  - vm_compute in Hrun. injection Hrun as <- _. by injection Hdata as <-.
Defined.

Lemma deterministic_up_to_clock_later_run :
  let later := Sample.world_at 1800000000000 Sample.templates Sample.repo in
  db Sample.world = db later
  ∧ (preGenerateNextAction Sample.JSON_parse (Sample.params "job-dangling") Sample.world).1
    = (preGenerateNextAction Sample.JSON_parse (Sample.params "job-dangling") later).1
  ∧ issued Sample.world
      (preGenerateNextAction Sample.JSON_parse (Sample.params "job-unknown") Sample.world).2
    = issued later
        (preGenerateNextAction Sample.JSON_parse (Sample.params "job-unknown") later).2.
Proof.
  cbv zeta. split; [reflexivity|]. split.
  - apply (deterministic_up_to_clock Sample.JSON_parse (Sample.params "job-dangling")
             Sample.world (Sample.world_at 1800000000000 Sample.templates Sample.repo)).
    + reflexivity.
    + intros id. reflexivity.
  - destruct (deterministic_up_to_clock Sample.JSON_parse (Sample.params "job-unknown")
                Sample.world (Sample.world_at 1800000000000 Sample.templates Sample.repo)
                eq_refl (λ id, eq_refl)) as (_ & _ & _ & _ & Hagree & _).
    apply Hagree. intros k Hk.
    assert (writes
              (issued Sample.world
                 (preGenerateNextAction Sample.JSON_parse (Sample.params "job-unknown")
                    Sample.world).2) = []) as Hnone by (vm_compute; reflexivity).
    rewrite Hnone in Hk. cbn in Hk. lia.
Defined.


Lemma result_invariant_declined_job :
  ∃ r w',
    preGenerateNextAction Sample.JSON_parse (Sample.params "job-dangling") Sample.world
    = (Returned r, w')
    ∧ shouldGenerate r = false
    ∧ promptTemplate r = None ∧ templateData r = None ∧ toolConfiguration r = None.
Proof.
  destruct (preGenerateNextAction Sample.JSON_parse (Sample.params "job-dangling") Sample.world)
    as [[r|e] w'] eqn:Hrun; [|vm_compute in Hrun; discriminate Hrun].
  assert (shouldGenerate r = false) as Hfalse.
  { vm_compute in Hrun. by injection Hrun as <- _. }
  exists r, w'. split_and!; [done|done|..];
    by destruct (result_invariant Sample.JSON_parse _ _ _ _ Hrun) as [_ Hdeclined];
      destruct (Hdeclined Hfalse) as (_ & ? & ? & ?).
Defined.

(** ** Where the handler departs from a simpler reading *)

(** An empty [nextActionTemplateId] is not null, and no template has the
    empty id, yet the job is not failed: the handler takes the empty id as
    no id at all and generates with the default prompt. *)
Lemma empty_template_id_is_not_looked_up :
  db_reviewJob (db Sample.world) !! "job-empty-id" = Some (Sample.job true (Some ""))
  ∧ db_promptTemplate (db Sample.world) !! "" = None
  ∧ shouldGenerate <$>
      (preGenerateNextAction Sample.JSON_parse (Sample.params "job-empty-id") Sample.world).1
    = Returned true
  ∧ issued Sample.world
      (preGenerateNextAction Sample.JSON_parse (Sample.params "job-empty-id") Sample.world).2
    = [ReviewJobFindUnique "job-empty-id";
       ReviewJobUpdate "job-empty-id" NEXT_ACTION_STATUS.PROCESSING 1700000000000;
       ReviewResultFindMany "job-empty-id"]
  ∧ status_of
      (db (preGenerateNextAction Sample.JSON_parse (Sample.params "job-empty-id")
             Sample.world).2) "job-empty-id"
    = Some NEXT_ACTION_STATUS.PROCESSING.
Proof. split_and!; vm_compute; reflexivity. Qed.

(** With a template stored under the empty id, a job whose
    [nextActionTemplateId] is the empty string still gets the default
    prompt, not the stored one. *)
Lemma empty_template_id_gets_default_prompt :
  let stored := {| tpl_prompt := "Stored under the empty id";
                   tpl_toolConfigurationId := None |} in
  let w := Sample.world_at 1700000000000 (<["" := stored]> Sample.templates) Sample.repo in
  nextActionTemplateId
    <$> (job_checkListSet <$> db_reviewJob (db w) !! "job-empty-id") = Some (Some "")
  ∧ db_promptTemplate (db w) !! "" = Some stored
  ∧ shouldGenerate <$>
      (preGenerateNextAction Sample.JSON_parse (Sample.params "job-empty-id") w).1
    = Returned true
  ∧ promptTemplate <$>
      (preGenerateNextAction Sample.JSON_parse (Sample.params "job-empty-id") w).1
    = Returned (Some {| prompt := DEFAULT_NEXT_ACTION_PROMPT |})
  ∧ DEFAULT_NEXT_ACTION_PROMPT ≠ tpl_prompt stored.
Proof. cbv zeta. split_and!; try (vm_compute; reflexivity). discriminate. Qed.

(** Two runs on the same tables with the same params, one at a later date:
    the same result, but not the same writes, for each write carries the
    date it was made. *)
Lemma same_tables_different_writes :
  let later := Sample.world_at 1800000000000 Sample.templates Sample.repo in
  db Sample.world = db later
  ∧ toolConfigRepo Sample.world = toolConfigRepo later
  ∧ calls Sample.world = calls later
  ∧ (preGenerateNextAction Sample.JSON_parse (Sample.params "job-off") Sample.world).1
    = (preGenerateNextAction Sample.JSON_parse (Sample.params "job-off") later).1
  ∧ writes (issued Sample.world
              (preGenerateNextAction Sample.JSON_parse (Sample.params "job-off")
                 Sample.world).2)
    = [ReviewJobUpdate "job-off" NEXT_ACTION_STATUS.SKIPPED 1700000000000]
  ∧ writes (issued later
              (preGenerateNextAction Sample.JSON_parse (Sample.params "job-off") later).2)
    = [ReviewJobUpdate "job-off" NEXT_ACTION_STATUS.SKIPPED 1800000000000]
  ∧ writes (issued Sample.world
              (preGenerateNextAction Sample.JSON_parse (Sample.params "job-off")
                 Sample.world).2)
    ≠ writes (issued later
                (preGenerateNextAction Sample.JSON_parse (Sample.params "job-off") later).2).
Proof.
  cbv zeta. split_and!; try (vm_compute; reflexivity).
  vm_compute. discriminate.
Qed.


(** The handler as a whole throws on such a review result, after it has set
    the job to [PROCESSING]. *)
Example null_source_reference_stops_the_handler :
  (preGenerateNextAction Sample.JSON_parse (Sample.params "job-null-ref") Sample.world).1
  = Threw (TypeError "Cannot read properties of null (reading 'documentId')")
  ∧ status_of
      (db (preGenerateNextAction Sample.JSON_parse (Sample.params "job-null-ref")
             Sample.world).2) "job-null-ref"
    = Some NEXT_ACTION_STATUS.PROCESSING.
Proof. split; vm_compute; reflexivity. Qed.

(** * More about the handler *)

Section HandlerFacts.

Variable JSON_parse : string → option JsValue.

Local Ltac unfold_monad :=
  unfold mbind, M_bind, mret, M_ret, lift, try_catch, console_log, console_error, newDate,
    reviewJob_findUnique, reviewJob_update, promptTemplate_findUnique,
    reviewResult_findMany, toolConfigRepo_findById; cbn.

Local Ltac along_path params w o w' :=
  let HP := fresh "HP" in
  pose proof (preGenerateNextAction_path JSON_parse params w) as HP;
  destruct (preGenerateNextAction JSON_parse params w) as [o w'];
  cbn [fst snd] in *;
  destruct HP as
    [ ? Hnone Hdb Hcalls
    | pjob ? Hsome Hflag Hdb Hcalls
    | pjob ptid ? Hsome Hflag Hid Htemplate Hdb Hcalls
    | pjob pprompt ptool pstep4 perr ? Hsome Hflag Hstep4 Hmap Hdb Hcalls
    | pjob pprompt ptool pstep4 penriched ? Hsome Hflag Hstep4 Hmap Hdb Hcalls ];
  apply issued_app in Hcalls;
  unfold first_date, second_date in *.

Lemma written_app cs cs' : written (cs ++ cs') = written cs ++ written cs'.
Proof. apply omap_app. Qed.

Lemma Resolved_written (w : World) job promptToUse toolConfigurationId step4 :
  Resolved w job promptToUse toolConfigurationId step4 → written step4 = [].
Proof. by destruct 1. Qed.

Lemma lookups_written toolConfigurationId : written (lookups toolConfigurationId) = [].
Proof. unfold lookups. by destruct (if_truthy _). Qed.

Lemma update_in_writes c cs : c ∈ cs → is_write c = true → c ∈ writes cs.
Proof.
  rewrite !list_elem_of_In. unfold writes. intros Hin Hwrite.
  apply List.filter_In. by split.
Qed.

(** X1. The writes of a run follow one of four scripts: none, [SKIPPED],
    [PROCESSING], or [PROCESSING] then [FAILED]; every one of them updates
    the job named by the params. The handler never writes [PENDING] or
    [COMPLETED]. *)
Theorem write_scripts params (w : World) :
  written (issued w (preGenerateNextAction JSON_parse params w).2)
    ∈ [ [];
        [NEXT_ACTION_STATUS.SKIPPED];
        [NEXT_ACTION_STATUS.PROCESSING];
        [NEXT_ACTION_STATUS.PROCESSING; NEXT_ACTION_STATUS.FAILED] ]
  ∧ ∀ id status updatedAt,
      ReviewJobUpdate id status updatedAt
        ∈ issued w (preGenerateNextAction JSON_parse params w).2 →
      id = reviewJobId params.
Proof.
  along_path params w o w'; rewrite Hcalls;
    (split;
     [ rewrite ?written_app, ?(Resolved_written _ _ _ _ _ Hstep4), ?lookups_written; cbn
     | intros id st t Hin; apply update_in_writes in Hin; [|done];
       rewrite ?writes_app, ?(Resolved_no_write _ _ _ _ _ Hstep4), ?lookups_no_write in Hin;
       cbn in Hin;
       repeat (apply elem_of_cons in Hin as [Hin|Hin]; [congruence|]);
       by apply elem_of_nil in Hin ]).
  - apply list_elem_of_here.
  - apply list_elem_of_further, list_elem_of_here.
  - do 3 apply list_elem_of_further. apply list_elem_of_here.
  - do 2 apply list_elem_of_further. apply list_elem_of_here.
  - do 2 apply list_elem_of_further. apply list_elem_of_here.
Qed.

(** *** What a run leaves alone *)

Lemma write_status_same_inputs id status t job d :
  db_reviewJob d !! id = Some job → same_inputs d (write_status id status t job d).
Proof.
  intros Hjob. split_and!; [done|done|]. intros id'. cbn.
  destruct (decide (id = id')) as [<-|Hne].
  - by rewrite lookup_insert_eq, Hjob.
  - by rewrite lookup_insert_ne.
Qed.

Lemma write_status_other id status t job d id' :
  id ≠ id' → db_reviewJob (write_status id status t job d) !! id' = db_reviewJob d !! id'.
Proof. intros Hne. cbn. by rewrite lookup_insert_ne. Qed.

Lemma same_inputs_trans d1 d2 d3 : same_inputs d1 d2 → same_inputs d2 d3 → same_inputs d1 d3.
Proof.
  intros (? & ? & H12) (? & ? & H23). split_and!; [congruence|congruence|].
  intros id. by rewrite H12.
Qed.

(** X2. A run changes nothing but the [nextActionStatus] and [updatedAt] of
    the job named by the params: the prompt templates, the review results
    and every other job are as before, and so are the job's own
    [checkListSet] and [documents]. *)
Theorem run_writes_one_job_only params (w : World) :
  same_inputs (db w) (db (preGenerateNextAction JSON_parse params w).2)
  ∧ ∀ id, id ≠ reviewJobId params →
      db_reviewJob (db (preGenerateNextAction JSON_parse params w).2) !! id
      = db_reviewJob (db w) !! id.
Proof.
  along_path params w o w'; rewrite Hdb.
  - by split.
  - split; [by apply write_status_same_inputs|].
    intros id Hne. by apply write_status_other.
  - split.
    + eapply same_inputs_trans; [by apply write_status_same_inputs|].
      apply write_status_same_inputs. cbn. by rewrite lookup_insert_eq.
    + intros id Hne. by rewrite !write_status_other.
  - split; [by apply write_status_same_inputs|].
    intros id Hne. by apply write_status_other.
  - split; [by apply write_status_same_inputs|].
    intros id Hne. by apply write_status_other.
Qed.

(** X3. What a returned result says and what the job's row says agree: a
    generating result leaves the job [PROCESSING], "Next Action is disabled"
    leaves it [SKIPPED], "Prompt template not found" leaves it [FAILED], and
    "Review job not found" means there is no row and nothing was changed. A
    declining result carries one of these three messages. *)
Theorem result_agrees_with_status params (w : World) r :
  (preGenerateNextAction JSON_parse params w).1 = Returned r →
  (shouldGenerate r = true →
     status_of (db (preGenerateNextAction JSON_parse params w).2) (reviewJobId params)
     = Some NEXT_ACTION_STATUS.PROCESSING)
  ∧ (message r = Some "Next Action is disabled" →
     status_of (db (preGenerateNextAction JSON_parse params w).2) (reviewJobId params)
     = Some NEXT_ACTION_STATUS.SKIPPED)
  ∧ (message r = Some "Prompt template not found" →
     status_of (db (preGenerateNextAction JSON_parse params w).2) (reviewJobId params)
     = Some NEXT_ACTION_STATUS.FAILED)
  ∧ (message r = Some "Review job not found" →
     status_of (db (preGenerateNextAction JSON_parse params w).2) (reviewJobId params) = None
     ∧ db (preGenerateNextAction JSON_parse params w).2 = db w)
  ∧ (shouldGenerate r = false →
     message r = Some "Review job not found"
     ∨ message r = Some "Next Action is disabled"
     ∨ message r = Some "Prompt template not found").
Proof.
  intros Hr. along_path params w o w'; simplify_eq; cbn; rewrite Hdb;
    rewrite ?status_of_write; split_and!; try done; auto.
  intros _. unfold status_of. by rewrite Hnone.
Qed.

(** *** When the handler throws *)

Lemma array_map_Threw {A B} (f : A → Outcome B) l e :
  array_map f l = Threw e → ∃ x, x ∈ l ∧ f x = Threw e.
Proof.
  induction l as [|x l IH]; cbn; [done|].
  unfold mbind, Outcome_bind.
  destruct (f x) as [y|e'] eqn:Hx.
  - destruct (array_map f l) as [ys|e'']; [done|].
    intros [= ->]. destruct IH as (x' & Hin & Hx'); [done|].
    exists x'. split; [by apply list_elem_of_further | done].
  - intros [= ->]. exists x. split; [apply list_elem_of_here | done].
Qed.

Lemma array_map_Threw_intro {A B} (f : A → Outcome B) l :
  Exists (λ x, returns (f x) = false) l → returns (array_map f l) = false.
Proof.
  induction 1 as [x l Hx | x l _ IH]; cbn; unfold mbind, Outcome_bind.
  - by destruct (f x).
  - destruct (f x); [|done]. by destruct (array_map f l).
Qed.

Lemma resolveSourceReference_Threw documentMap ref e :
  resolveSourceReference documentMap ref = Threw e →
  is_nullish ref = true ∧ ∃ msg, e = TypeError msg.
Proof.
  unfold resolveSourceReference. destruct ref; cbn; try done; intros [= <-]; eauto.
Qed.

Lemma resolveSourceReferences_mapped documentMap refs items :
  mapped_over JSON_parse refs items →
  resolveSourceReferences JSON_parse documentMap refs
  = array_map (resolveSourceReference documentMap) items.
Proof.
  intros [-> | (text & -> & Hne & Hparse)]; unfold resolveSourceReferences; cbn.
  - done.
  - apply String.eqb_neq in Hne. by rewrite Hne, Hparse.
Qed.

Lemma resolveSourceReferences_null_element documentMap refs :
  returns (resolveSourceReferences JSON_parse documentMap refs) = false
  ↔ ∃ items, mapped_over JSON_parse refs items ∧ Exists (λ ref, is_nullish ref = true) items.
Proof.
  split.
  - unfold resolveSourceReferences.
    destruct (truthy refs) eqn:Htruthy; cbn; [|done].
    assert (∀ items,
              returns (array_map (resolveSourceReference documentMap) items) = false →
              Exists (λ ref, is_nullish ref = true) items) as Hnull.
    { intros items Hthrow.
      destruct (array_map _ items) as [|e] eqn:Hmap; [done|].
      apply array_map_Threw in Hmap as (ref & Hin & Href).
      apply resolveSourceReference_Threw in Href as [Href _].
      apply Exists_exists. eauto. }
    destruct refs as [| | | |text|items|]; try done.
    + destruct (JSON_parse text) as [[]|] eqn:Hparse; try done.
      intros Hthrow. eexists. split; [|by apply Hnull].
      right. exists text. split_and!; [done| |done]. intros ->. discriminate Htruthy.
    + intros Hthrow. exists items. split; [by left | by apply Hnull].
  - intros (items & Hover & Hnull).
    rewrite (resolveSourceReferences_mapped _ _ _ Hover).
    apply array_map_Threw_intro. eapply Exists_impl; [done|].
    intros ref Href; cbn in Href. by destruct ref.
Qed.

Lemma resolveSourceReferences_TypeError documentMap refs e :
  resolveSourceReferences JSON_parse documentMap refs = Threw e → ∃ msg, e = TypeError msg.
Proof.
  unfold resolveSourceReferences. destruct (truthy refs); cbn; [|done].
  assert (∀ items, array_map (resolveSourceReference documentMap) items = Threw e →
                   ∃ msg, e = TypeError msg) as Htype.
  { intros items (ref & _ & Href)%array_map_Threw.
    by apply resolveSourceReference_Threw in Href as [_ ?]. }
  destruct refs as [| | | |text|items|]; try done; [|by apply Htype].
  destruct (JSON_parse text) as [[]|]; try done. by apply Htype.
Qed.

(** X4. [resolveSourceReferences] throws exactly when the array it maps over
    holds [null] or [undefined], and what it throws is a [TypeError]. *)
Theorem resolveSourceReferences_throws_iff documentMap refs :
  (returns (resolveSourceReferences JSON_parse documentMap refs) = false
   ↔ ∃ items, mapped_over JSON_parse refs items
       ∧ Exists (λ ref, is_nullish ref = true) items)
  ∧ ∀ e, resolveSourceReferences JSON_parse documentMap refs = Threw e →
      ∃ msg, e = TypeError msg.
Proof.
  split; [apply resolveSourceReferences_null_element|].
  apply resolveSourceReferences_TypeError.
Qed.

Lemma enrich_Threw documentMap item e :
  enrich JSON_parse documentMap item = Threw e →
  resolveSourceReferences JSON_parse documentMap (rr_sourceReferences item) = Threw e.
Proof.
  unfold enrich, mbind, Outcome_bind.
  destruct (resolveSourceReferences _ _ _); [done|]. by intros [= ->].
Qed.

Lemma enrich_returns documentMap item :
  returns (enrich JSON_parse documentMap item)
  = returns (resolveSourceReferences JSON_parse documentMap (rr_sourceReferences item)).
Proof.
  unfold enrich, mbind, Outcome_bind.
  by destruct (resolveSourceReferences _ _ _).
Qed.

Lemma array_map_returns_inv {A B} (f : A → Outcome B) l :
  returns (array_map f l) = true → Forall (λ x, returns (f x) = true) l.
Proof.
  induction l as [|x l IH]; cbn; [constructor|].
  unfold mbind, Outcome_bind.
  destruct (f x) eqn:Hx; [|done].
  destruct (array_map f l); [|done].
  intros _. constructor; [by rewrite Hx | by apply IH].
Qed.

(** X5. Building [templateData] (the [reviewResults.map] of step 6, which
    awaits nothing) throws exactly when one of the review results has
    [null] or [undefined] among its source references, and what it throws
    is a [TypeError]: one such row is enough to lose the whole array. *)
Theorem templateData_throws_iff documentMap (reviewResults : list ReviewResult) :
  (returns (array_map (enrich JSON_parse documentMap) reviewResults) = false
   ↔ ∃ item items,
       item ∈ reviewResults
       ∧ mapped_over JSON_parse (rr_sourceReferences item) items
       ∧ Exists (λ ref, is_nullish ref = true) items)
  ∧ ∀ e, array_map (enrich JSON_parse documentMap) reviewResults = Threw e →
      ∃ msg, e = TypeError msg.
Proof.
  split; [split|].
  - intros Hthrow.
    destruct (array_map _ reviewResults) as [|e] eqn:Hmap; [done|].
    apply array_map_Threw in Hmap as (item & Hin & Hitem).
    apply enrich_Threw in Hitem.
    destruct (proj1 (resolveSourceReferences_null_element documentMap
                       (rr_sourceReferences item))) as (items & Hover & Hnull).
    { by rewrite Hitem. }
    eauto.
  - intros (item & items & Hin & Hover & Hnull).
    apply array_map_Threw_intro, Exists_exists. exists item. split; [done|].
    rewrite enrich_returns.
    apply resolveSourceReferences_null_element. eauto.
  - intros e (item & _ & Hitem)%array_map_Threw.
    apply enrich_Threw in Hitem. by eapply resolveSourceReferences_TypeError.
Qed.

(** X6. A result with [shouldGenerate = true] is returned only when no
    review result of the job has [null] or [undefined] among its source
    references: a job with such a row never gets a generating result. *)
Theorem generating_result_has_no_null_reference params (w w' : World) r :
  preGenerateNextAction JSON_parse params w = (Returned r, w') →
  shouldGenerate r = true →
  ∀ item items,
    item ∈ fetched_results params w →
    mapped_over JSON_parse (rr_sourceReferences item) items →
    Forall (λ ref, is_nullish ref = false) items.
Proof.
  intros Hrun Htrue item items Hin Hover.
  pose proof (preGenerateNextAction_path JSON_parse params w) as HP.
  rewrite Hrun in HP; cbn [fst snd] in HP.
  inversion HP as [ | | | | job p tc step4 enriched ? _ _ _ Hmap ]; subst;
    try discriminate Htrue.
  assert (returns (resolveSourceReferences JSON_parse (documentMap_of job)
                     (rr_sourceReferences item)) = true) as Hreturns.
  { rewrite <- enrich_returns.
    assert (returns (array_map (enrich JSON_parse (documentMap_of job))
                       (fetched_results params w)) = true) as Hall by by rewrite Hmap.
    apply array_map_returns_inv in Hall. rewrite Forall_forall in Hall. by apply Hall. }
  apply Forall_forall. intros ref Href.
  destruct (is_nullish ref) eqn:Hnull; [|done].
  assert (returns (resolveSourceReferences JSON_parse (documentMap_of job)
                     (rr_sourceReferences item)) = false) as Hthrows.
  { apply resolveSourceReferences_null_element. exists items. split; [done|].
    apply Exists_exists. eauto. }
  congruence.
Qed.

(** *** Source references *)

(** X7. Source references stored as a JSON text resolve as the array the
    text parses to would; the text is parsed once, so a text that parses to
    a string (a JSON text inside a JSON text) resolves to no reference at
    all. *)
Theorem resolveSourceReferences_text_as_array documentMap text :
  (∀ items, text ≠ "" → JSON_parse text = Some (JArray items) →
     resolveSourceReferences JSON_parse documentMap (JString text)
     = resolveSourceReferences JSON_parse documentMap (JArray items))
  ∧ (∀ inner, JSON_parse text = Some (JString inner) →
     resolveSourceReferences JSON_parse documentMap (JString text) = Returned []).
Proof.
  split.
  - intros items Hne Hparse.
    rewrite (resolveSourceReferences_mapped documentMap (JString text) items).
    + by rewrite (resolveSourceReferences_mapped documentMap (JArray items) items); [|left].
    + right. eauto.
  - intros inner Hparse. unfold resolveSourceReferences.
    destruct (truthy _); cbn; [|done]. by rewrite Hparse.
Qed.

Lemma lookup_filename_cases documentMap documentId :
  lookup_filename documentMap documentId = "Unknown"
  ∨ lookup_filename documentMap documentId ≠ ""
    ∧ ∃ id, documentId = JString id
        ∧ documentMap !! id = Some (lookup_filename documentMap documentId).
Proof.
  unfold lookup_filename. destruct documentId as [| | | |id| |]; auto.
  destruct (documentMap !! id) as [file|] eqn:Hfile; auto.
  destruct (String.eqb file "") eqn:Hempty; auto.
  right. apply String.eqb_neq in Hempty. eauto.
Qed.

(** X8. A resolved reference always has a filename to show: it is never
    empty, and it is either ["Unknown"] or the filename the document map
    holds for the element's [documentId]. Its [pageNumber] is never
    [undefined]. *)
Theorem resolved_references_are_presentable documentMap refs out sr :
  resolveSourceReferences JSON_parse documentMap refs = Returned out →
  sr ∈ out →
  filename sr ≠ ""
  ∧ (filename sr = "Unknown" ∨ ∃ id, id ≠ "" ∧ documentMap !! id = Some (filename sr))
  ∧ pageNumber sr ≠ JUndefined.
Proof.
  intros Hout Hsr.
  assert (∀ items,
            array_map (resolveSourceReference documentMap) items = Returned out →
            filename sr ≠ ""
            ∧ (filename sr = "Unknown"
               ∨ ∃ id, id ≠ "" ∧ documentMap !! id = Some (filename sr))
            ∧ pageNumber sr ≠ JUndefined) as Hitems.
  { intros items Hmap. apply array_map_Returned in Hmap.
    apply list_elem_of_lookup in Hsr as [i Hi].
    destruct (Forall2_lookup_r _ _ _ _ _ Hmap Hi) as (ref & _ & Href).
    unfold resolveSourceReference in Href.
    destruct (get_prop ref "documentId") as [documentId|] eqn:Hid; [|done].
    destruct (get_prop ref "pageNumber") as [page|] eqn:Hpage; [|done].
    cbn in Href. injection Href as <-. cbn. split_and!.
    - destruct (truthy documentId); [|done].
      by destruct (lookup_filename_cases documentMap documentId) as [-> | [? _]].
    - destruct (truthy documentId) eqn:Htruthy; [|by left].
      destruct (lookup_filename_cases documentMap documentId)
        as [-> | (_ & id & -> & Hfile)]; [by left|].
      right. exists id. split; [|done]. intros ->. discriminate Htruthy.
    - by destruct page. }
  revert Hout. unfold resolveSourceReferences.
  destruct (truthy refs); cbn.
  2: { intros [= <-]. by apply elem_of_nil in Hsr. }
  destruct refs as [| | | |text|items|];
    try (intros [= <-]; by apply elem_of_nil in Hsr); [|by apply Hitems].
  destruct (JSON_parse text) as [[]|];
    try (intros [= <-]; by apply elem_of_nil in Hsr). by apply Hitems.
Qed.

(** *** The document map *)

Lemma new_Map_snoc entries id file :
  new_Map (entries ++ [(id, file)]) = <[id := file]> (new_Map entries).
Proof. unfold new_Map. by rewrite foldl_app. Qed.

Lemma new_Map_lookup_None entries id :
  id ∉ entries.*1 → new_Map entries !! id = None.
Proof.
  induction entries as [|[id' file] entries IH] using rev_ind; [done|].
  rewrite fmap_app, new_Map_snoc. cbn. intros Hnot.
  apply not_elem_of_app in Hnot as [Hnot Hne].
  rewrite lookup_insert_ne; [by apply IH|].
  intros ->. apply Hne, list_elem_of_here.
Qed.

Lemma new_Map_lookup_NoDup entries id file :
  NoDup entries.*1 → (id, file) ∈ entries → new_Map entries !! id = Some file.
Proof.
  induction entries as [|[id' file'] entries IH] using rev_ind.
  - by intros _ ?%elem_of_nil.
  - rewrite fmap_app, new_Map_snoc. cbn.
    intros [Hnodup [Hfresh _]]%NoDup_app [Hin | Hin]%elem_of_app.
    + rewrite lookup_insert_ne; [by apply IH|].
      intros ->. apply (Hfresh id); [|apply list_elem_of_here].
      apply list_elem_of_fmap. by exists (id, file).
    + apply list_elem_of_singleton in Hin as [= -> ->]. apply lookup_insert_eq.
Qed.

Lemma new_Map_lookup_app entries later id :
  id ∉ later.*1 → new_Map (entries ++ later) !! id = new_Map entries !! id.
Proof.
  induction later as [|[id' file] later IH] using rev_ind.
  - by rewrite app_nil_r.
  - rewrite fmap_app, app_assoc, new_Map_snoc. cbn.
    intros [Hnot Hne]%not_elem_of_app.
    rewrite lookup_insert_ne; [by apply IH|].
    intros ->. apply Hne, list_elem_of_here.
Qed.

(** X9. The document map answers for the job's documents: an id no document
    has finds nothing, and, document ids being distinct, the id of a
    document finds its filename; when an id occurs more than once, the
    last document with that id wins. *)
Theorem documentMap_of_lookup job :
  (∀ id, id ∉ doc_id <$> job_documents job → documentMap_of job !! id = None)
  ∧ (NoDup (doc_id <$> job_documents job) →
     ∀ doc, doc ∈ job_documents job →
       documentMap_of job !! doc_id doc = Some (doc_filename doc))
  ∧ (∀ earlier doc later,
       job_documents job = earlier ++ doc :: later →
       doc_id doc ∉ doc_id <$> later →
       documentMap_of job !! doc_id doc = Some (doc_filename doc)).
Proof.
  unfold documentMap_of. split_and!.
  - intros id Hnot. apply new_Map_lookup_None.
    by rewrite <- list_fmap_compose.
  - intros Hnodup doc Hdoc. apply new_Map_lookup_NoDup.
    + by rewrite <- list_fmap_compose.
    + apply list_elem_of_fmap. by exists doc.
  - intros earlier doc later -> Hlast.
    rewrite map_app. cbn.
    rewrite cons_middle, app_assoc, new_Map_lookup_app.
    + rewrite new_Map_snoc. apply lookup_insert_eq.
    + by rewrite <- list_fmap_compose.
Qed.

(** Of two documents with one id, the second gives the filename. *)
Example documentMap_of_repeated_id :
  documentMap_of
    {| job_checkListSet := {| enableNextAction := true; nextActionTemplateId := None |};
       job_documents := [ {| doc_id := "d"; doc_filename := "a.pdf" |};
                          {| doc_id := "d"; doc_filename := "b.pdf" |} ];
       job_nextActionStatus := NEXT_ACTION_STATUS.PENDING;
       job_updatedAt := 0 |} !! "d"
  = Some "b.pdf".
Proof. vm_compute; reflexivity. Qed.

(** X10. A reference to one of the job's documents resolves to that
    document's filename, when ids are distinct and neither the id nor the
    filename is empty. *)
Theorem reference_to_document_resolves job doc ref :
  NoDup (doc_id <$> job_documents job) →
  doc ∈ job_documents job →
  doc_id doc ≠ "" → doc_filename doc ≠ "" →
  get_prop ref "documentId" = Returned (JString (doc_id doc)) →
  filename <$> resolveSourceReference (documentMap_of job) ref
  = Returned (doc_filename doc).
Proof.
  intros Hnodup Hdoc Hid Hfile Href.
  pose proof (new_Map_lookup_NoDup
                (map (λ doc, (doc_id doc, doc_filename doc)) (job_documents job))
                (doc_id doc) (doc_filename doc)) as Hlookup.
  unfold resolveSourceReference. rewrite Href. cbn.
  apply String.eqb_neq in Hid, Hfile. rewrite Hid. cbn.
  fold (documentMap_of job) in Hlookup. rewrite Hlookup, Hfile.
  - destruct ref; try done.
  - by rewrite <- list_fmap_compose.
  - apply list_elem_of_fmap. by exists doc.
Qed.

(** *** The tool configuration handed to the agent *)

(** X11. When the lookup of the tool configuration succeeds, the result
    carries its id and name, and an optional part only when it has
    something in it: [knowledgeBase] only as a non-empty list,
    [codeInterpreter] only as [true], [mcpConfig] only with at least one
    server; each part present is the configuration's own. *)
Theorem tool_configuration_for_agent params (w : World) id config :
  ToolConfigurationFindById id ∈ issued w (preGenerateNextAction JSON_parse params w).2 →
  toolConfigRepo w id = Returned config →
  ∃ r out,
    (preGenerateNextAction JSON_parse params w).1 = Returned r
    ∧ toolConfiguration r = Some out
    ∧ tool_id out = cfg_id config
    ∧ tool_name out = cfg_name config
    ∧ (∀ kbs, knowledgeBase out = Some kbs ↔ cfg_knowledgeBase config = Some kbs ∧ kbs ≠ [])
    ∧ (∀ b, codeInterpreter out = Some b ↔ b = true ∧ cfg_codeInterpreter config = true)
    ∧ (∀ mcp, mcpConfig out = Some mcp ↔
         cfg_mcpConfig config = Some mcp
         ∧ ∃ server servers, mcpServers mcp = Some (server :: servers)).
Proof.
  intros Hin Hfound. along_path params w o w'; rewrite Hcalls in Hin.
  - by apply list_elem_of_singleton in Hin.
  - by repeat (apply elem_of_cons in Hin as [Hin|Hin]; [discriminate|]);
      apply elem_of_nil in Hin.
  - by repeat (apply elem_of_cons in Hin as [Hin|Hin]; [discriminate|]);
      apply elem_of_nil in Hin.
  - destruct Hstep4; cbn in Hin;
      by repeat (apply elem_of_cons in Hin as [Hin|Hin]; [discriminate|]);
        apply elem_of_nil in Hin.
  - assert (if_truthy ptool = Some id) as Hwanted.
    { unfold lookups in Hin.
      destruct Hstep4; cbn in Hin;
        repeat (apply elem_of_cons in Hin as [Hin|Hin]; [congruence|]);
        [by apply elem_of_nil in Hin|].
      destruct (if_truthy _); [|by apply elem_of_nil in Hin].
      apply list_elem_of_singleton in Hin. congruence. }
    eexists _, (toAgentFormat config). split; [done|]. cbn.
    unfold fetched. rewrite Hwanted, Hfound. split_and!; try done.
    + intros kbs. destruct (cfg_knowledgeBase config) as [[|kb rest]|];
        (split; [intros [= <-] | intros [[= <-] ?]]); done.
    + intros b. destruct (cfg_codeInterpreter config);
        (split; [intros [= <-] | intros [-> ?]]); done.
    + intros mcp.
      destruct (cfg_mcpConfig config) as [[[[|server servers]|]]|]; cbn;
        (split; [intros [= <-] | intros [[= <-] (? & ? & ?)]]); eauto; done.
Qed.

(** *** Running again *)

Lemma Resolved_same_inputs (w1 w2 : World) j1 j2 p1 tc1 s1 p2 tc2 s2 :
  db_promptTemplate (db w1) = db_promptTemplate (db w2) →
  job_checkListSet j1 = job_checkListSet j2 →
  Resolved w1 j1 p1 tc1 s1 → Resolved w2 j2 p2 tc2 s2 →
  p1 = p2 ∧ tc1 = tc2 ∧ s1 = s2.
Proof.
  intros Htemplates Hset [Hid1 | tid1 tpl1 Hid1 Htpl1] [Hid2 | tid2 tpl2 Hid2 Htpl2];
    rewrite ?Htemplates, ?Hset in *; simplify_eq; done.
Qed.

(** Two runs from worlds with the same inputs follow the same path. *)
Lemma Path_same_inputs params (w1 w2 : World) o1 w1' o2 w2' :
  same_inputs (db w1) (db w2) →
  (∀ id, toolConfigRepo w1 id = toolConfigRepo w2 id) →
  Path JSON_parse params w1 o1 w1' → Path JSON_parse params w2 o2 w2' →
  o1 = o2 ∧ untimed <$> issued w1 w1' = untimed <$> issued w2 w2'.
Proof.
  intros (Htemplates & Hresults & Hjobs) Hrepo HP1 HP2.
  assert (fetched_results params w1 = fetched_results params w2) as Hfetched.
  { unfold fetched_results. by rewrite Hresults. }
  specialize (Hjobs (reviewJobId params)).
  destruct HP1 as
    [ ? Hnone1 Hdb1 Hcalls1
    | j1 ? Hsome1 Hflag1 Hdb1 Hcalls1
    | j1 t1 ? Hsome1 Hflag1 Hid1 Htemplate1 Hdb1 Hcalls1
    | j1 p1 tc1 s1 e1 ? Hsome1 Hflag1 Hstep1 Hmap1 Hdb1 Hcalls1
    | j1 p1 tc1 s1 en1 ? Hsome1 Hflag1 Hstep1 Hmap1 Hdb1 Hcalls1 ];
  destruct HP2 as
    [ ? Hnone2 Hdb2 Hcalls2
    | j2 ? Hsome2 Hflag2 Hdb2 Hcalls2
    | j2 t2 ? Hsome2 Hflag2 Hid2 Htemplate2 Hdb2 Hcalls2
    | j2 p2 tc2 s2 e2 ? Hsome2 Hflag2 Hstep2 Hmap2 Hdb2 Hcalls2
    | j2 p2 tc2 s2 en2 ? Hsome2 Hflag2 Hstep2 Hmap2 Hdb2 Hcalls2 ];
  apply issued_app in Hcalls1, Hcalls2; rewrite Hcalls1, Hcalls2;
  rewrite ?Hnone1, ?Hsome1, ?Hnone2, ?Hsome2 in Hjobs; try discriminate Hjobs;
  try (injection Hjobs as Hset Hdocs;
       assert (documentMap_of j1 = documentMap_of j2) as Hmap
         by (unfold documentMap_of; by rewrite Hdocs);
       rewrite ?Hset, ?Htemplates, ?Hmap, ?Hfetched in *);
  try congruence;
  try (destruct Hstep1; rewrite ?Hset, ?Htemplates in *; congruence);
  try (destruct Hstep2; rewrite <- ?Hset in *; congruence);
  try (destruct (Resolved_same_inputs _ _ _ _ _ _ _ _ _ _ Htemplates Hset Hstep1 Hstep2)
         as (-> & -> & ->);
       rewrite Hmap1 in Hmap2; simplify_eq);
  try (rewrite Hid1 in Hid2; simplify_eq);
  (split; [ by rewrite ?(fetched_ext _ _ _ Hrepo) | by rewrite ?fmap_app ]).
Qed.

Lemma prepare_env id job promptToUse toolConfigurationId (w : World) :
  toolConfigRepo (prepare JSON_parse id job promptToUse toolConfigurationId w).2
  = toolConfigRepo w
  ∧ clock (prepare JSON_parse id job promptToUse toolConfigurationId w).2 = clock w
  ∧ dates (prepare JSON_parse id job promptToUse toolConfigurationId w).2 = dates w.
Proof.
  unfold prepare. unfold_monad.
  destruct (array_map _ _); cbn; [|done].
  destruct (if_truthy toolConfigurationId) as [tc|]; cbn; [|done].
  by destruct (toolConfigRepo w tc).
Qed.

(** The repository and the clock are not the handler's to change; how often
    it reads the clock, branch by branch. *)
Lemma preGenerateNextAction_clock_reads params (w : World) :
  toolConfigRepo (preGenerateNextAction JSON_parse params w).2 = toolConfigRepo w
  ∧ clock (preGenerateNextAction JSON_parse params w).2 = clock w
  ∧ dates (preGenerateNextAction JSON_parse params w).2
    = dates w +
      match db_reviewJob (db w) !! reviewJobId params with
      | None => 0
      | Some job =>
          if enableNextAction (job_checkListSet job) then
            match if_truthy (nextActionTemplateId (job_checkListSet job)) with
            | Some templateId =>
                match db_promptTemplate (db w) !! templateId with
                | Some _ => 1
                | None => 2
                end
            | None => 1
            end
          else 1
      end.
Proof.
  unfold preGenerateNextAction. unfold_monad.
  destruct (db_reviewJob (db w) !! reviewJobId params) as [job|] eqn:Hjob; cbn.
  2: { split_and!; [done|done|lia]. }
  destruct (enableNextAction (job_checkListSet job)) eqn:Hflag; cbn; rewrite Hjob; cbn.
  2: { split_and!; [done|done|lia]. }
  destruct (if_truthy (nextActionTemplateId (job_checkListSet job))) as [tid|] eqn:Htid; cbn.
  - destruct (db_promptTemplate (db w) !! tid) as [tpl|] eqn:Htpl; cbn.
    + match goal with |- context [prepare _ ?i ?j ?p ?t ?w0] =>
        pose proof (prepare_env i j p t w0) as (Hrepo & Hclock & Hdates);
        destruct (prepare JSON_parse i j p t w0) as [[] w'] end;
        cbn in *; (split_and!; [done|done|lia]).
    + rewrite lookup_insert_eq; cbn. split_and!; [done|done|lia].
  - match goal with |- context [prepare _ ?i ?j ?p ?t ?w0] =>
      pose proof (prepare_env i j p t w0) as (Hrepo & Hclock & Hdates);
      destruct (prepare JSON_parse i j p t w0) as [[] w'] end;
      cbn in *; (split_and!; [done|done|lia]).
Qed.

(** X12. The handler reads the clock once for each write and at no other
    time, and the [k]-th write of a run carries the [k]-th reading: a
    [FAILED] that follows a [PROCESSING] is stamped with a later reading of
    the clock, not with the same one. *)
Theorem one_clock_reading_per_write params (w : World) :
  dates (preGenerateNextAction JSON_parse params w).2
  = dates w + length (writes (issued w (preGenerateNextAction JSON_parse params w).2))
  ∧ ∀ k id status updatedAt,
      writes (issued w (preGenerateNextAction JSON_parse params w).2) !! k
      = Some (ReviewJobUpdate id status updatedAt) →
      updatedAt = clock w (dates w + k).
Proof.
  pose proof (preGenerateNextAction_clock_reads params w) as (_ & _ & Hdates).
  along_path params w o w'; rewrite Hdates, Hcalls;
    rewrite ?writes_app, ?(Resolved_no_write _ _ _ _ _ Hstep4), ?lookups_no_write; cbn.
  - rewrite Hnone. split; [done|]. by intros [|k] ? ? ?.
  - rewrite Hsome, Hflag. split; [done|].
    intros [|[|k]] ? ? ? [=]; subst. by rewrite Nat.add_0_r.
  - rewrite Hsome, Hflag, Hid, Htemplate. split; [done|].
    intros [|[|[|k]]] ? ? ? [=]; subst; [by rewrite Nat.add_0_r | by rewrite Nat.add_1_r].
  - rewrite Hsome, Hflag. split.
    + destruct Hstep4 as [-> | ? ? -> ->]; done.
    + intros [|[|k]] ? ? ? [=]; subst. by rewrite Nat.add_0_r.
  - rewrite Hsome, Hflag. split.
    + destruct Hstep4 as [-> | ? ? -> ->]; done.
    + intros [|[|k]] ? ? ? [=]; subst. by rewrite Nat.add_0_r.
Qed.

(** X13. Running the handler again on the world a run left behind gives the
    same outcome and the same calls, writes included, up to their
    timestamps: the handler does not look at the status it wrote, so a
    second run generates (or declines) as the first one did. *)
Theorem second_run_repeats_first params (w : World) :
  (preGenerateNextAction JSON_parse params (preGenerateNextAction JSON_parse params w).2).1
  = (preGenerateNextAction JSON_parse params w).1
  ∧ untimed <$>
      issued (preGenerateNextAction JSON_parse params w).2
        (preGenerateNextAction JSON_parse params
           (preGenerateNextAction JSON_parse params w).2).2
    = untimed <$> issued w (preGenerateNextAction JSON_parse params w).2.
Proof.
  pose proof (preGenerateNextAction_clock_reads params w) as (Hrepo & _ & _).
  assert (same_inputs (db (preGenerateNextAction JSON_parse params w).2) (db w)) as Hsame.
  { pose proof (preGenerateNextAction_path JSON_parse params w) as HP.
    destruct (preGenerateNextAction JSON_parse params w) as [o w']. cbn [fst snd] in *.
    assert (same_inputs (db w) (db w')) as (? & ? & Hjobs).
    { destruct HP as
        [ ? Hnone Hdb Hcalls
        | pjob ? Hsome Hflag Hdb Hcalls
        | pjob ptid ? Hsome Hflag Hid Htemplate Hdb Hcalls
        | pjob pprompt ptool pstep4 perr ? Hsome Hflag Hstep4 Hmap Hdb Hcalls
        | pjob pprompt ptool pstep4 penriched ? Hsome Hflag Hstep4 Hmap Hdb Hcalls ];
        rewrite Hdb; try by apply write_status_same_inputs.
      - by split_and!.
      - eapply same_inputs_trans; [by apply write_status_same_inputs|].
        apply write_status_same_inputs. cbn. by rewrite lookup_insert_eq. }
    split_and!; [done|done|]. intros id. by rewrite Hjobs. }
  apply (Path_same_inputs params _ w _ _ _ _ Hsame).
  - intros id. by rewrite Hrepo.
  - apply preGenerateNextAction_path.
  - apply preGenerateNextAction_path.
Qed.

(** X20. In a returned result, the [sourceReferences] of each element of
    [allResults] are those of the review result at the same place, resolved
    against the documents of the job. *)
Theorem allResults_sourceReferences params (w w' : World) r data :
  preGenerateNextAction JSON_parse params w = (Returned r, w') →
  templateData r = Some data →
  ∃ job, db_reviewJob (db w) !! reviewJobId params = Some job
    ∧ ∀ i item, fetched_results params w !! i = Some item →
        ∃ out, allResults data !! i = Some out
          ∧ resolveSourceReferences JSON_parse (documentMap_of job)
              (rr_sourceReferences item)
            = Returned (sourceReferences out).
Proof.
  intros Hrun Hdata. pose proof (preGenerateNextAction_path JSON_parse params w) as HP.
  rewrite Hrun in HP; cbn [fst snd] in HP.
  inversion HP as [ | | | | job p tc step4 enriched ? Hjob _ _ Hmap ]; subst;
    try discriminate Hdata.
  injection Hdata as <-. cbn [allResults].
  apply array_map_Returned in Hmap.
  exists job. split; [done|]. intros i item Hi.
  destruct (Forall2_lookup_l _ _ _ _ _ Hmap Hi) as (out & Hout & Henrich).
  exists out. split; [done|].
  revert Henrich. unfold enrich, mbind, Outcome_bind.
  destruct (resolveSourceReferences _ _ _); [|done]. by intros [= <-].
Qed.

End HandlerFacts.

(** * More about the editor *)

Lemma or_else_empty s : Frontend.or_else s "" = s.
Proof. unfold Frontend.or_else. destruct (String.eqb s "") eqn:H; [|done]. by apply String.eqb_eq in H. Qed.

(** X14. The save button is disabled on a freshly mounted editor and after
    a save that succeeded; a save that failed leaves the state, dirty flag
    included, as it was; and every edit marks the state dirty, so that the
    button is enabled when nothing is being submitted and name and prompt
    are not empty. *)
Theorem save_button_follows_edits type isSubmitting st :
  (∀ template, Frontend.saveDisabled isSubmitting (Frontend.mount template type) = true)
  ∧ Frontend.saveDisabled isSubmitting (Frontend.handleSubmit type true st).1 = true
  ∧ (Frontend.handleSubmit type false st).1 = st
  ∧ ∀ ev,
      match ev with
      | Frontend.FormSubmitted _ | Frontend.TemplateReplaced _ => False
      | Frontend.ToolConfigurationSelected _ | Frontend.InsertClicked _ _ =>
          type = Frontend.PromptTemplateType.NEXT_ACTION
      | _ => True
      end →
      Frontend.st_isDirty (Frontend.step type st ev).1 = true
      ∧ Frontend.saveDisabled isSubmitting (Frontend.step type st ev).1
        = isSubmitting
          || String.eqb (Frontend.st_name (Frontend.step type st ev).1) ""
          || String.eqb (Frontend.st_prompt (Frontend.step type st ev).1) "".
Proof.
  split_and!.
  - by intros [t|].
  - done.
  - done.
  - intros ev Hev.
    assert (Frontend.st_isDirty (Frontend.step type st ev).1 = true) as Hdirty.
    { destruct ev as [| | | |? [[]|]| | |]; try done; try (by subst type);
        by destruct type. }
    split; [done|]. unfold Frontend.saveDisabled. by rewrite Hdirty.
Qed.

(** X15. Opening a stored template and saving it at once sends the template
    back: its name, its description (the empty string when it has none) and
    its own prompt, even an empty one; the default prompt of the type is
    used only when the editor is opened without a template. *)
Theorem open_then_save_round_trip type :
  (∀ template,
     Frontend.name (Frontend.submitted type (Frontend.mount (Some template) type))
     = Frontend.template_name template
     ∧ Frontend.description (Frontend.submitted type (Frontend.mount (Some template) type))
       = default "" (Frontend.template_description template)
     ∧ Frontend.prompt (Frontend.submitted type (Frontend.mount (Some template) type))
       = Frontend.template_prompt template
     ∧ (type = Frontend.PromptTemplateType.NEXT_ACTION →
        Frontend.toolConfigurationId
          (Frontend.submitted type (Frontend.mount (Some template) type))
        = Frontend.or_null (Frontend.template_toolConfigurationId template)))
  ∧ Frontend.name (Frontend.submitted type (Frontend.mount None type)) = ""
  ∧ Frontend.description (Frontend.submitted type (Frontend.mount None type)) = ""
  ∧ Frontend.prompt (Frontend.submitted type (Frontend.mount None type))
    = Frontend.defaultPrompt type.
Proof.
  split_and!; try done.
  intros template. cbn. rewrite or_else_empty. split_and!; try done. by intros ->.
Qed.

Lemma substring_all s : String.substring 0 (String.length s) s = s.
Proof. induction s as [|c s IH]; cbn; [done|]. by rewrite IH. Qed.

Lemma substring_selection (s : string) : ∀ start stop : nat,
  (start ≤ stop)%nat →
  ∃ selected,
    s = String.substring 0 start s +:+ selected
        +:+ String.substring stop (String.length s - stop) s
    ∧ String.length selected
      = (stop `min` String.length s) - (start `min` String.length s).
Proof.
  induction s as [|c s IH]; intros start stop Hle.
  - exists "". destruct start, stop; cbn; split; try done; lia.
  - destruct start as [|start], stop as [|stop]; try lia.
    + exists "". cbn. by rewrite substring_all.
    + destruct (IH 0 stop) as (selected & Hs & Hlen); [lia|].
      exists (String c selected). cbn in *. split; [|lia].
      rewrite Hs at 1. f_equal. by destruct s.
    + destruct (IH start stop) as (selected & Hs & Hlen); [lia|].
      exists selected. cbn. split; [|done]. by rewrite Hs at 1.
Qed.

(** X16. In an ASCII prompt, inserting a variable replaces the selected
    part of the prompt and nothing else: what stands before the selection
    and what stands after it are kept around the variable; with a collapsed
    selection nothing is removed. Without a textarea the variable goes to
    the end. *)
Theorem insert_replaces_selection variable (start stop : nat) st :
  Frontend.is_ascii (Frontend.st_prompt st) = true →
  (start ≤ stop)%nat →
  (∃ before selected after,
     Frontend.st_prompt st = before +:+ selected +:+ after
     ∧ String.length before = start `min` String.length (Frontend.st_prompt st)
     ∧ String.length selected
       = (stop `min` String.length (Frontend.st_prompt st))
         - (start `min` String.length (Frontend.st_prompt st))
     ∧ Frontend.st_prompt (Frontend.handleInsertVariable variable (Some (start, stop)) st)
       = before +:+ variable +:+ after)
  ∧ Frontend.st_prompt (Frontend.handleInsertVariable variable None st)
    = Frontend.st_prompt st +:+ variable.
Proof.
  intros _ Hle. split; [|done].
  destruct (substring_selection (Frontend.st_prompt st) start stop Hle)
    as (selected & Hprompt & Hlen).
  exists (String.substring 0 start (Frontend.st_prompt st)), selected,
    (String.substring stop (String.length (Frontend.st_prompt st) - stop)
       (Frontend.st_prompt st)).
  split_and!; [done| |done|done].
  clear. generalize (Frontend.st_prompt st) as s. revert start.
  induction start as [|start IH]; intros [|c s]; cbn; try done.
  by rewrite IH.
Qed.

(** X17. In a [NEXT_ACTION] editor the select shows what was selected, and
    the state never holds an empty id after a selection. No other action of
    the user touches the tool configuration, and in a [CHECKLIST] or
    [REVIEW] editor none does: only a new [template] prop can change it. *)
Theorem selection_round_trip type st :
  (type = Frontend.PromptTemplateType.NEXT_ACTION →
   ∀ selected,
     Frontend.selectValue
       (Frontend.step type st (Frontend.ToolConfigurationSelected selected)).1 = selected
     ∧ Frontend.st_toolConfigurationId
         (Frontend.step type st (Frontend.ToolConfigurationSelected selected)).1
       ≠ Frontend.Value "")
  ∧ ∀ ev,
      match ev with
      | Frontend.TemplateReplaced _ => False
      | Frontend.ToolConfigurationSelected _ =>
          type ≠ Frontend.PromptTemplateType.NEXT_ACTION
      | _ => True
      end →
      Frontend.st_toolConfigurationId (Frontend.step type st ev).1
      = Frontend.st_toolConfigurationId st.
Proof.
  split.
  - intros -> selected. cbn. unfold Frontend.selectValue; cbn.
    destruct (String.eqb selected "") eqn:Hempty; cbn.
    + apply String.eqb_eq in Hempty. by subst.
    + rewrite or_else_empty. split; [done|]. intros [= ->]. discriminate Hempty.
  - intros ev Hev.
    destruct ev as [| | | |? [[]|]| |[]|]; try done; by destruct type.
Qed.

(** X18. Over a whole session [onSave] is called once for each submission
    of the form and for nothing else, and each request follows the type of
    the editor: a [toolConfigurationId] (possibly [null]) from a
    [NEXT_ACTION] editor, none from the others, whatever templates were
    loaded or ids selected on the way. *)
Theorem session_requests type st evs :
  length (Frontend.run type st evs).2 = length (List.filter Frontend.is_submission evs)
  ∧ ∀ request, request ∈ (Frontend.run type st evs).2 →
      if Frontend.PromptTemplateType.eqb type Frontend.PromptTemplateType.NEXT_ACTION
      then Frontend.toolConfigurationId request ≠ Frontend.Undefined
      else Frontend.toolConfigurationId request = Frontend.Undefined.
Proof.
  split; [|intros request; apply run_saved_requests].
  revert st. induction evs as [|ev evs IH]; intros st; cbn; [done|].
  destruct (Frontend.step type st ev) as [st' reqs] eqn:Hstep.
  specialize (IH st').
  destruct (Frontend.run type st' evs) as [st'' reqs']. cbn in *.
  rewrite length_app, IH.
  destruct ev; cbn in *;
    try (destruct (Frontend.PromptTemplateType.eqb type _));
    by simplify_eq.
Qed.

(** X19. Resetting a [NEXT_ACTION] editor puts in the very prompt the
    handler falls back on when a job names no template, and leaves name,
    description and tool configuration alone: saving after a reset stores
    the handler's built-in prompt. *)
Theorem reset_restores_handler_default st :
  Frontend.prompt
    (Frontend.submitted Frontend.PromptTemplateType.NEXT_ACTION
       (Frontend.handleReset Frontend.PromptTemplateType.NEXT_ACTION st))
  = DEFAULT_NEXT_ACTION_PROMPT
  ∧ Frontend.name
      (Frontend.submitted Frontend.PromptTemplateType.NEXT_ACTION
         (Frontend.handleReset Frontend.PromptTemplateType.NEXT_ACTION st))
    = Frontend.st_name st
  ∧ Frontend.toolConfigurationId
      (Frontend.submitted Frontend.PromptTemplateType.NEXT_ACTION
         (Frontend.handleReset Frontend.PromptTemplateType.NEXT_ACTION st))
    = Frontend.or_null (Frontend.st_toolConfigurationId st)
  ∧ Frontend.st_isDirty (Frontend.handleReset Frontend.PromptTemplateType.NEXT_ACTION st)
    = true.
Proof. by split_and!. Qed.

(** ** These facts at work on the sample data *)

Lemma result_agrees_with_status_dangling_id :
  (preGenerateNextAction Sample.JSON_parse (Sample.params "job-dangling") Sample.world).1
  = Returned (declined "Prompt template not found")
  ∧ status_of
      (db (preGenerateNextAction Sample.JSON_parse (Sample.params "job-dangling")
             Sample.world).2) "job-dangling"
    = Some NEXT_ACTION_STATUS.FAILED.
Proof.
  assert ((preGenerateNextAction Sample.JSON_parse (Sample.params "job-dangling")
             Sample.world).1
          = Returned (declined "Prompt template not found")) as Hrun
    by (vm_compute; reflexivity).
  split; [exact Hrun|].
  destruct (result_agrees_with_status Sample.JSON_parse _ _ _ Hrun)
    as (_ & _ & Hfailed & _).
  exact (Hfailed eq_refl).
Defined.

Lemma generating_result_has_no_null_reference_custom_job :
  ∃ r w',
    preGenerateNextAction Sample.JSON_parse (Sample.params "job-custom") Sample.world
    = (Returned r, w')
    ∧ shouldGenerate r = true
    ∧ mapped_over Sample.JSON_parse
        (rr_sourceReferences
           (Sample.item "job-custom" "Parties" (Some "Contract") "fail"
              (JArray [Sample.page_three_of "doc-1"])))
        [Sample.page_three_of "doc-1"]
    ∧ Forall (λ ref, is_nullish ref = false) [Sample.page_three_of "doc-1"].
Proof.
  assert (∃ r w', preGenerateNextAction Sample.JSON_parse (Sample.params "job-custom")
                    Sample.world = (Returned r, w')
                  ∧ shouldGenerate r = true) as (r & w' & Hrun & Htrue).
  { eexists _, _. split; [vm_compute; reflexivity | reflexivity]. }
  assert (mapped_over Sample.JSON_parse
            (rr_sourceReferences
               (Sample.item "job-custom" "Parties" (Some "Contract") "fail"
                  (JArray [Sample.page_three_of "doc-1"])))
            [Sample.page_three_of "doc-1"]) as Hover by (left; reflexivity).
  assert (Sample.item "job-custom" "Parties" (Some "Contract") "fail"
            (JArray [Sample.page_three_of "doc-1"])
          ∈ fetched_results (Sample.params "job-custom") Sample.world) as Hin.
  { apply (list_elem_of_lookup_2 _ 0). vm_compute; reflexivity. }
  exists r, w'. split_and!; [exact Hrun | exact Htrue | exact Hover |].
  apply (generating_result_has_no_null_reference Sample.JSON_parse _ _ _ _ Hrun Htrue
           _ _ Hin Hover).
Defined.

Lemma resolved_references_are_presentable_page_three :
  filename {| filename := "contract.pdf"; pageNumber := JNum Sample.three |} ≠ ""
  ∧ pageNumber {| filename := "contract.pdf"; pageNumber := JNum Sample.three |}
    ≠ JUndefined.
Proof.
  destruct (resolved_references_are_presentable Sample.JSON_parse
              (documentMap_of (Sample.job true None))
              (JArray [Sample.page_three_of "doc-1"])
              [ {| filename := "contract.pdf"; pageNumber := JNum Sample.three |} ]
              {| filename := "contract.pdf"; pageNumber := JNum Sample.three |})
    as (Hname & _ & Hpage).
  - vm_compute; reflexivity.
  - apply list_elem_of_here.
  - split; [exact Hname | exact Hpage].
Defined.

Lemma reference_to_document_resolves_contract :
  filename <$>
    resolveSourceReference (documentMap_of (Sample.job true None))
      (Sample.page_three_of "doc-1")
  = Returned "contract.pdf".
Proof.
  apply (reference_to_document_resolves (Sample.job true None)
           {| doc_id := "doc-1"; doc_filename := "contract.pdf" |}
           (Sample.page_three_of "doc-1")).
  - apply (bool_decide_unpack _). vm_compute; reflexivity.
  - apply list_elem_of_here.
  - discriminate.
  - discriminate.
  - vm_compute; reflexivity.
Defined.

Lemma tool_configuration_for_agent_knowledge_base :
  ToolConfigurationFindById "tc-1"
    ∈ issued Sample.world
        (preGenerateNextAction Sample.JSON_parse (Sample.params "job-custom") Sample.world).2
  ∧ ∃ r out,
      (preGenerateNextAction Sample.JSON_parse (Sample.params "job-custom") Sample.world).1
      = Returned r
      ∧ toolConfiguration r = Some out
      ∧ tool_name out = "Knowledge base search".
Proof.
  assert (ToolConfigurationFindById "tc-1"
          ∈ issued Sample.world
              (preGenerateNextAction Sample.JSON_parse (Sample.params "job-custom")
                 Sample.world).2) as Hin.
  { apply (list_elem_of_lookup_2 _ 4). vm_compute; reflexivity. }
  split; [exact Hin|].
  destruct (tool_configuration_for_agent Sample.JSON_parse (Sample.params "job-custom")
              Sample.world "tc-1" Sample.toolConfiguration Hin eq_refl)
    as (r & out & Hrun & Hout & _ & Hname & _).
  exists r, out. split_and!; [exact Hrun | exact Hout | exact Hname].
Defined.

Lemma insert_replaces_selection_at_the_end :
  let st := Frontend.setPrompt "Fix: " (Frontend.mount None Frontend.PromptTemplateType.NEXT_ACTION) in
  ∃ before selected after,
    Frontend.is_ascii (Frontend.st_prompt st) = true
    ∧ Frontend.st_prompt st = before +:+ selected +:+ after
    ∧ String.length selected = 0
    ∧ Frontend.st_prompt
        (Frontend.handleInsertVariable "{{all_results}}" (Some (5, 5)) st)
      = before +:+ "{{all_results}}" +:+ after.
Proof.
  cbv zeta.
  destruct (insert_replaces_selection "{{all_results}}" 5 5
              (Frontend.setPrompt "Fix: "
                 (Frontend.mount None Frontend.PromptTemplateType.NEXT_ACTION)))
    as [(before & selected & after & Hprompt & _ & Hlen & Hnew) _]; [reflexivity|lia|].
  exists before, selected, after.
  split_and!; [reflexivity | exact Hprompt | exact Hlen | exact Hnew].
Defined.

Lemma allResults_sourceReferences_custom_job :
  ∃ r w' data,
    preGenerateNextAction Sample.JSON_parse (Sample.params "job-custom") Sample.world
    = (Returned r, w')
    ∧ templateData r = Some data
    ∧ ∃ out, allResults data !! 0 = Some out
        ∧ resolveSourceReferences Sample.JSON_parse (documentMap_of (Sample.job true None))
            (JArray [Sample.page_three_of "doc-1"])
          = Returned (sourceReferences out).
Proof.
  assert (∃ r w', preGenerateNextAction Sample.JSON_parse (Sample.params "job-custom")
                    Sample.world = (Returned r, w')
                  ∧ is_Some (templateData r)) as (r & w' & Hrun & data & Hdata).
  { eexists _, _. split; [vm_compute; reflexivity | by eexists]. }
  exists r, w', data. split_and!; [exact Hrun | exact Hdata |].
  destruct (allResults_sourceReferences Sample.JSON_parse _ _ _ _ _ Hrun Hdata)
    as (job & Hjob & Hall).
  vm_compute in Hjob. injection Hjob as <-.
  destruct (Hall 0 (Sample.item "job-custom" "Parties" (Some "Contract") "fail"
                      (JArray [Sample.page_three_of "doc-1"])))
    as (out & Hout & Hrefs); [vm_compute; reflexivity|].
  exists out. split; [exact Hout | exact Hrefs].
Defined.
